(** * Loan pipeline: cleaning and transformation stages

    A shallow embedding of [scripts/data_cleaning.py] and
    [scripts/data_transformation.py] of the fintech loan analysis project.

    The two scripts are straight-line pandas programs over one data frame.
    The embedding works on the data frame that [pd.read_csv] hands to the
    script and that [DataFrame.to_csv] receives at the end:

    - a cell is null ([NaN]), a text, a finite number or an infinity;
      numbers are exact rationals (binary64 rounding is abstracted away),
      kept in lowest terms so that equal numbers are equal terms;
    - a row is a finite map from column names to cells, a frame is the
      ordered list of its column names together with its rows;
    - an exception raised inside a script's [try] block makes the stage
      produce no output: the embedded stage returns [None];
    - texts are byte strings and the digit class is the ASCII one. *)

From Stdlib Require Import QArith Lqa Ascii String.
From stdpp Require Import gmap strings list fin_maps pretty.

Local Open Scope string_scope.

(** ** Cells, rows and frames *)

Inductive cell :=
  | NaN
  | Str (s : string)
  | Num (q : Q)
  | Inf (neg : bool).

#[global] Instance Q_eq_dec : EqDecision Q.
Proof. solve_decision. Defined.

#[global] Instance cell_eq_dec : EqDecision cell.
Proof. solve_decision. Defined.

Abbreviation row := (gmap string cell).

Record frame := Frame { columns : list string; rows : list row }.

#[global] Instance frame_eq_dec : EqDecision frame.
Proof. solve_decision. Defined.

(** [r[c]]: the cell of row [r] in column [c]. *)
Definition col (r : row) (c : string) : cell := default NaN (r !! c).

(** [df[c]]: the cells of column [c], row after row. *)
Definition series (df : frame) (c : string) : list cell :=
  (λ r, col r c) <$> rows df.

(** [c in df.columns] *)
Definition has_col (df : frame) (c : string) : bool :=
  bool_decide (c ∈ columns df).

(** [Series.isnull] on one cell. *)
Definition isnull (v : cell) : bool :=
  match v with NaN => true | _ => false end.

(** [len(df)] *)
Definition nrows (df : frame) : nat := length (rows df).

(** [df[c] = values]: an existing column is replaced where it stands, a new
    one is appended as the last column. *)
Definition set_columns (c : string) (df : frame) : list string :=
  if has_col df c then columns df else columns df ++ [c].

Definition set_col (c : string) (f : row → cell) (df : frame) : frame :=
  {| columns := set_columns c df;
     rows := (λ r, <[c := f r]> r) <$> rows df |}.

(** The same assignment when computing the new values can raise. *)
Definition set_colM (c : string) (f : row → option cell) (df : frame)
  : option frame :=
  rs ← mapM (λ r, v ← f r; Some (<[c := v]> r)) (rows df);
  Some {| columns := set_columns c df; rows := rs |}.

(** ** Vocabulary for statements about rows *)

(** [agree_off K r r']: row [r'] has the cells of [r] in every column
    outside [K]. *)
Definition agree_off (K : list string) (r r' : row) : Prop :=
  ∀ k, k ∉ K → r' !! k = r !! k.

(** ** Text helpers *)

Definition is_digit (a : ascii) : bool :=
  let n := nat_of_ascii a in (48 <=? n)%nat && (n <=? 57)%nat.

Fixpoint take_digits (s : string) : string :=
  match s with
  | String a s' => if is_digit a then String a (take_digits s') else ""
  | EmptyString => ""
  end.

(** [re.search(r'(\d+)', s)]: the leftmost maximal run of digits. *)
Fixpoint extract_digits (s : string) : option string :=
  match s with
  | EmptyString => None
  | String a s' => if is_digit a then Some (take_digits s) else extract_digits s'
  end.

(** Value of a run of decimal digits, most significant digit first. *)
Fixpoint digits_value (acc : N) (s : string) : N :=
  match s with
  | EmptyString => acc
  | String a s' => digits_value (acc * 10 + (N_of_ascii a - 48))%N s'
  end.

(** [re.search(r'\+', s) is not None] *)
Fixpoint contains_plus (s : string) : bool :=
  match s with
  | EmptyString => false
  | String a s' => if decide (a = "+"%char) then true else contains_plus s'
  end.

(** [str.rstrip(ch)]: remove every trailing occurrence of [ch]. *)
Fixpoint rstrip (ch : ascii) (s : string) : string :=
  match s with
  | EmptyString => ""
  | String a s' =>
      match rstrip ch s' with
      | EmptyString => if decide (a = ch) then "" else String a ""
      | t => String a t
      end
  end.


(** Every character of [s] is a digit. *)
Fixpoint all_digits (s : string) : bool :=
  match s with
  | EmptyString => true
  | String a s' => is_digit a && all_digits s'
  end.


(** ** Numbers *)

Definition num_Z (z : Z) : cell := Num (inject_Z z).
Definition num_N (n : N) : cell := num_Z (Z.of_N n).
Definition num_nat (n : nat) : cell := num_Z (Z.of_nat n).

(** [a < b] on numeric cells; any comparison with a null or a text is
    false here (texts are rejected before comparisons are made). *)
Definition cell_ltb (a b : cell) : bool :=
  match a, b with
  | Num x, Num y => negb (Qle_bool y x)
  | Num _, Inf neg => negb neg
  | Inf neg, Num _ => neg
  | Inf n1, Inf n2 => n1 && negb n2
  | _, _ => false
  end.

(** ['{:,}'.format(n)]: decimal digits in groups of three. *)
Fixpoint group3 (fuel : nat) (n : N) : string :=
  match fuel with
  | O => pretty n
  | S fuel' =>
      if (n <? 1000)%N then pretty n
      else
        let r := (n mod 1000)%N in
        let pad := if (r <? 10)%N then "00" else if (r <? 100)%N then "0" else "" in
        group3 fuel' (n / 1000)%N +:+ "," +:+ pad +:+ pretty r
  end.

Definition fmt_thousands (z : Z) : string :=
  let n := Z.abs_N z in
  (if (z <? 0)%Z then "-" else "") +:+ group3 (N.to_nat (N.log2 n)) n.

(** [ch * n] *)
Fixpoint repeat_char (ch : ascii) (n : nat) : string :=
  match n with
  | O => ""
  | S n' => String ch (repeat_char ch n')
  end.

(** ** The transformation stage ([data_transformation.py]) *)

Module Transformation.

Record state := State {
  df : frame;
  transformations : list string;
  new_features : list string
}.

Definition good_loans : list string := ["Fully Paid"; "Current"].

(** [Series.isin(values)] on one cell. *)
Definition isin (values : list string) (v : cell) : bool :=
  match v with
  | Str s => bool_decide (s ∈ values)
  | _ => false
  end.

(** [.astype(int)] on a boolean. *)
Definition astype_int (b : bool) : cell := if b then num_Z 1 else num_Z 0.

Definition risk_map : gmap string string :=
  list_to_map [("A", "Low"); ("B", "Low"); ("C", "Medium"); ("D", "Medium");
               ("E", "High"); ("F", "High"); ("G", "High")].

(** [Series.map(dict)] on one cell: a key that is not in the dictionary
    gives a null. *)
Definition map_dict (d : gmap string string) (v : cell) : cell :=
  match v with
  | Str s => from_option Str NaN (d !! s)
  | _ => NaN
  end.

(** [a / b] on one pair of cells; a text operand raises [TypeError]. *)
Definition truediv (a b : cell) : option cell :=
  match a, b with
  | Str _, _ | _, Str _ => None
  | NaN, _ | _, NaN => Some NaN
  | Num x, Num y =>
      if Qeq_bool y 0 then
        if Qeq_bool x 0 then Some NaN else Some (Inf (negb (Qle_bool 0 x)))
      else Some (Num (Qred (x / y)))
  | Num _, Inf _ => Some (Num 0)
  | Inf neg, Num y => Some (Inf (xorb neg (negb (Qle_bool 0 y))))
  | Inf _, Inf _ => Some NaN
  end.

(** The [.str] accessor exists on text columns only: a column that
    [read_csv] typed as numeric (no text cell although there are rows)
    raises [AttributeError]. *)
Definition str_accessor (d : frame) (c : string) : option unit :=
  if bool_decide (rows d = []) ||
     existsb (λ r, match col r c with Str _ => true | _ => false end) (rows d)
  then Some () else None.

(** [.str.extract('(\d+)').fillna(0).astype(float)] on one cell. *)
Definition extract_years (v : cell) : cell :=
  match v with
  | Str s =>
      match extract_digits s with
      | Some d => num_N (digits_value 0 d)
      | None => num_Z 0
      end
  | _ => num_Z 0
  end.

(** [.str.contains('\+', na=False)] on one cell. *)
Definition str_contains_plus (v : cell) : bool :=
  match v with
  | Str s => contains_plus s
  | _ => false
  end.

Definition bins : list cell :=
  [num_Z 0; num_Z 5000; num_Z 15000; num_Z 25000; num_Z 35000; Inf false].

Definition labels : list string :=
  ["Very Small"; "Small"; "Medium"; "Large"; "Very Large"].

(** [bins.searchsorted(x, side='left')] on a sorted list: the number of
    edges strictly below [x]. *)
Definition searchsorted_left (edges : list cell) (x : cell) : nat :=
  length (filter (λ b, cell_ltb b x = true) edges).

(** [pd.cut(x, bins, labels)] with its defaults [right=True] and
    [include_lowest=False], on one cell: position [ids] among the edges,
    null when the value is null or lies outside the edges, else label
    [ids - 1]. A text cell raises [TypeError]. *)
Definition cut (edges : list cell) (names : list string) (x : cell)
  : option cell :=
  match x with
  | Str _ => None
  | NaN => Some NaN
  | _ =>
      let ids := searchsorted_left edges x in
      if bool_decide (ids = length edges) || bool_decide (ids = 0%nat)
      then Some NaN
      else Some (from_option Str NaN (names !! (ids - 1)%nat))
  end.

Definition record (t : string) (feature : string) (d : frame) (s : state)
  : state :=
  {| df := d;
     transformations := transformations s ++ [t];
     new_features := new_features s ++ [feature] |}.

(** 1. Target variable *)
Definition target_variable (s : state) : option state :=
  if has_col (df s) "loan_status" then
    let d := set_col "is_good_loan"
               (λ r, astype_int (isin good_loans (col r "loan_status"))) (df s) in
    let good_count :=
      Z.of_nat (length (filter (λ r, col r "is_good_loan" = num_Z 1) (rows d))) in
    let bad_count := (Z.of_nat (nrows d) - good_count)%Z in
    Some (record ("Target: " +:+ fmt_thousands good_count +:+ " good vs "
                  +:+ fmt_thousands bad_count +:+ " bad loans")
                 "is_good_loan" d s)
  else Some s.

(** 2. Risk categories *)
Definition risk_categories (s : state) : option state :=
  if has_col (df s) "grade" then
    let d := set_col "risk_category" (λ r, map_dict risk_map (col r "grade")) (df s) in
    Some (record "Added risk categories" "risk_category" d s)
  else Some s.

(** 3. Income ratio *)
Definition income_ratio (s : state) : option state :=
  if has_col (df s) "annual_inc" && has_col (df s) "loan_amnt" then
    d ← set_colM "income_loan_ratio"
          (λ r, truediv (col r "annual_inc") (col r "loan_amnt")) (df s);
    Some (record "Added income to loan ratio" "income_loan_ratio" d s)
  else Some s.

(** 4. Employment years *)
Definition employment_years (s : state) : option state :=
  if has_col (df s) "emp_length" then
    _ ← str_accessor (df s) "emp_length";
    let d1 := set_col "emp_years" (λ r, extract_years (col r "emp_length")) (df s) in
    let d2 := set_col "emp_years"
                (λ r, if str_contains_plus (col r "emp_length") then num_Z 10
                      else col r "emp_years") d1 in
    Some (record "Converted employment length to years" "emp_years" d2 s)
  else Some s.

(** 5. Loan size categories *)
Definition loan_size_categories (s : state) : option state :=
  if has_col (df s) "loan_amnt" then
    d ← set_colM "loan_size_category"
          (λ r, cut bins labels (col r "loan_amnt")) (df s);
    Some (record "Added loan size categories" "loan_size_category" d s)
  else Some s.

(** The body of [main] between [read_csv] and [to_csv]: the final state
    holds the frame written to [processed_data.csv]. *)
Definition transform (cleaned : frame) : option state :=
  s1 ← target_variable (State cleaned [] []);
  s2 ← risk_categories s1;
  s3 ← income_ratio s2;
  s4 ← employment_years s3;
  loan_size_categories s4.

(** The names of the five derived columns. *)
Definition derived : list string :=
  ["is_good_loan"; "risk_category"; "income_loan_ratio"; "emp_years";
   "loan_size_category"].

(** *** Vocabulary for the statements about this stage *)

(** [writes c s s']: going from [s] to [s'] appends at most column [c],
    keeps the number of rows and changes no cell outside column [c]. *)
Definition writes (c : string) (s s' : state) : Prop :=
  columns (df s) `prefix_of` columns (df s') ∧
  (∀ k, k ∈ columns (df s') → k ∈ columns (df s) ∨ k = c) ∧
  Forall2 (agree_off [c]) (rows (df s)) (rows (df s')).

Definition good_loan_row (r : row) : Prop :=
  col r "is_good_loan" =
  astype_int (isin good_loans (col r "loan_status")).

Definition risk_row (r : row) : Prop :=
  col r "risk_category" = map_dict risk_map (col r "grade").


Definition loan_size_row (r : row) : Prop :=
  cut bins labels (col r "loan_amnt") = Some (col r "loan_size_category").

End Transformation.

(** ** Sample frames *)

Definition mk_row (kvs : list (string * cell)) : row := list_to_map kvs.

Definition sample_cleaned : frame :=
  {| columns := ["loan_amnt"; "grade"; "emp_length"; "annual_inc"; "loan_status"];
     rows := [ mk_row [("loan_amnt", num_Z 20000); ("grade", Str "C");
                       ("emp_length", Str "10+ years"); ("annual_inc", num_Z 60000);
                       ("loan_status", Str "Fully Paid")];
               mk_row [("loan_amnt", num_Z 5000); ("grade", Str "A");
                       ("emp_length", Str "< 1 year"); ("annual_inc", num_Z 42000);
                       ("loan_status", Str "Charged Off")];
               mk_row [("loan_amnt", num_Z 35000); ("grade", Str "G");
                       ("emp_length", NaN); ("annual_inc", num_Z 90000);
                       ("loan_status", Str "Current")] ] |}.

Definition sample_processed : Transformation.state := Eval vm_compute in
  default (Transformation.State sample_cleaned [] [])
            (Transformation.transform sample_cleaned).

Definition sample_processed_row : row :=
  default ∅ (head (rows (Transformation.df sample_processed))).

Definition sample_row_5000 : row :=
  default ∅ (rows (Transformation.df sample_processed) !! 1%nat).

(** A frame that already has a column called [is_good_loan]. *)
Definition relabelled : frame :=
  {| columns := ["loan_status"; "is_good_loan"];
     rows := [ mk_row [("loan_status", Str "Charged Off"); ("is_good_loan", num_Z 1)] ] |}.

Definition relabelled_processed : Transformation.state := Eval vm_compute in
  default (Transformation.State relabelled [] [])
            (Transformation.transform relabelled).

(** ** The cleaning stage ([data_cleaning.py]) *)

Module Cleaning.

(** An entry of the [steps] list. The script stores the formatted text;
    the embedding keeps the values that the f-string interpolates and
    formats them in [step_text]. *)
Inductive step :=
  | RemovedEmpty (removed_empty : nat)
  | RemovedHighMissing (n : nat)
  | RemovedDupes (removed_dupes : nat)
  | RemovedMissing (missing : nat) (c : string)
  | Converted (c : string).

#[global] Instance step_eq_dec : EqDecision step.
Proof. solve_decision. Defined.

Definition step_text (s : step) : string :=
  match s with
  | RemovedEmpty n => "Removed " +:+ pretty n +:+ " empty columns"
  | RemovedHighMissing n => "Removed " +:+ pretty n +:+ " columns with >80% missing"
  | RemovedDupes n => "Removed " +:+ pretty n +:+ " duplicate rows"
  | RemovedMissing n c => "Removed " +:+ pretty n +:+ " rows with missing " +:+ c
  | Converted c => "Converted " +:+ c +:+ " to numeric"
  end.

Record state := State { df : frame; steps : list step }.

(** [datetime.now()] *)
Record datetime := Datetime {
  year : nat; month : nat; day : nat; hour : nat; minute : nat; second : nat
}.

Definition pad (width : nat) (n : nat) : string :=
  let s := pretty n in repeat_char "0" (width - String.length s) +:+ s.

(** [now.strftime('%Y-%m-%d %H:%M:%S')] *)
Definition strftime (t : datetime) : string :=
  pad 4 (year t) +:+ "-" +:+ pad 2 (month t) +:+ "-" +:+ pad 2 (day t) +:+ " "
  +:+ pad 2 (hour t) +:+ ":" +:+ pad 2 (minute t) +:+ ":" +:+ pad 2 (second t).

(** [df.shape] *)
Definition shape (d : frame) : nat * nat := (nrows d, length (columns d)).

(** Keep the columns that satisfy [keep], in every row as well. *)
Definition select_columns (keep : string → bool) (d : frame) : frame :=
  {| columns := filter (λ c, keep c = true) (columns d);
     rows := (λ r : row, filter (λ kv, keep kv.1 = true) r) <$> rows d |}.

(** [df[c].isnull().sum()] *)
Definition null_count (d : frame) (c : string) : nat :=
  length (filter (λ r, isnull (col r c) = true) (rows d)).

(** [df.dropna(axis=1, how='all')]: a column stays when some row has a
    value in it. *)
Definition dropna_columns_all (d : frame) : frame :=
  select_columns (λ c, existsb (λ r, negb (isnull (col r c))) (rows d)) d.

(** [df.isnull().sum() / len(df)] for one column (the quotient by zero
    rows is not above the threshold, in Python because it is a NaN). *)
Definition missing_pct (d : frame) (c : string) : Q :=
  inject_Z (Z.of_nat (null_count d c)) / inject_Z (Z.of_nat (nrows d)).

(** [missing_pct[missing_pct > 0.8].index] *)
Definition high_missing (d : frame) : list string :=
  filter (λ c, Qle_bool (missing_pct d c) (8 # 10) = false) (columns d).

(** [df.drop(columns=names)] *)
Definition drop_columns (names : list string) (d : frame) : frame :=
  select_columns (λ c, negb (bool_decide (c ∈ names))) d.

(** Keep the first occurrence of every row. *)
Fixpoint dedup_first (seen : list row) (l : list row) : list row :=
  match l with
  | [] => []
  | r :: l' =>
      if decide (r ∈ seen) then dedup_first seen l'
      else r :: dedup_first (r :: seen) l'
  end.

(** [df.drop_duplicates()]; pandas returns an empty frame (no rows or no
    columns) as it is. *)
Definition drop_duplicates (d : frame) : frame :=
  if bool_decide (columns d = []) || bool_decide (rows d = []) then d
  else {| columns := columns d; rows := dedup_first [] (rows d) |}.

(** [df.dropna(subset=[c])] *)
Definition dropna_rows (c : string) (d : frame) : frame :=
  {| columns := columns d;
     rows := filter (λ r, isnull (col r c) = false) (rows d) |}.

Definition key_cols : list string :=
  ["loan_amnt"; "term"; "int_rate"; "grade"; "loan_status"].

(** 1. Remove empty columns *)
Definition remove_empty_columns (s : state) : state :=
  let start_cols := length (columns (df s)) in
  let d := dropna_columns_all (df s) in
  let removed_empty := (start_cols - length (columns d))%nat in
  {| df := d;
     steps := if bool_decide (0 < removed_empty)%nat
              then steps s ++ [RemovedEmpty removed_empty] else steps s |}.

(** 2. Remove high missing columns (>80%) *)
Definition remove_high_missing (s : state) : state :=
  let names := high_missing (df s) in
  {| df := drop_columns names (df s);
     steps := if bool_decide (0 < length names)%nat
              then steps s ++ [RemovedHighMissing (length names)] else steps s |}.

(** 3. Remove duplicates *)
Definition remove_duplicates (s : state) : state :=
  let start_rows := nrows (df s) in
  let d := drop_duplicates (df s) in
  let removed_dupes := (start_rows - nrows d)%nat in
  {| df := d;
     steps := if bool_decide (0 < removed_dupes)%nat
              then steps s ++ [RemovedDupes removed_dupes] else steps s |}.

(** 4. Clean key columns: the body of the loop over [key_cols]. *)
Definition clean_key_column (s : state) (c : string) : state :=
  if has_col (df s) c then
    let missing := null_count (df s) c in
    if bool_decide (0 < missing)%nat then
      {| df := dropna_rows c (df s);
         steps := steps s ++ [RemovedMissing missing c] |}
    else s
  else s.

Section Conversion.

(** Python's [float(text)], which raises [ValueError] on a text that is
    not a number: library code, taken as a parameter. *)
Variable float_of_str : string → option cell.

(** [.astype(str).str.rstrip('%').astype(float)] on one cell. A cell that
    is already a number or a null is printed and read back unchanged. *)
Definition pct_to_float (v : cell) : option cell :=
  match v with
  | Str s => float_of_str (rstrip "%" s)
  | _ => Some v
  end.

(** 5. Convert percentages, for one column. *)
Definition convert_percentage (c : string) (s : state) : option state :=
  if has_col (df s) c then
    d ← set_colM c (λ r, pct_to_float (col r c)) (df s);
    Some {| df := d; steps := steps s ++ [Converted c] |}
  else Some s.

(** The steps 1 to 4, which cannot raise. *)
Definition reduce (raw : frame) : state :=
  let s1 := remove_empty_columns (State raw []) in
  let s2 := remove_high_missing s1 in
  let s3 := remove_duplicates s2 in
  foldl clean_key_column s3 key_cols.

(** The body of [main] between [read_csv] and [to_csv]. *)
Definition clean (raw : frame) : option state :=
  s5 ← convert_percentage "int_rate" (reduce raw);
  convert_percentage "revol_util" s5.

Definition report_lines (now : datetime) (original_shape final_shape : nat * nat)
    (done : list step) : list string :=
  let rows_red := (Z.of_nat original_shape.1 - Z.of_nat final_shape.1)%Z in
  let cols_red := (Z.of_nat original_shape.2 - Z.of_nat final_shape.2)%Z in
  [ "DATA CLEANING REPORT";
    repeat_char "=" 50;
    "Date: " +:+ strftime now;
    "";
    "SUMMARY";
    repeat_char "-" 10;
    "Original: " +:+ fmt_thousands (Z.of_nat original_shape.1) +:+ " rows, "
      +:+ pretty original_shape.2 +:+ " cols";
    "Final:    " +:+ fmt_thousands (Z.of_nat final_shape.1) +:+ " rows, "
      +:+ pretty final_shape.2 +:+ " cols";
    "Reduction: " +:+ fmt_thousands rows_red +:+ " rows, "
      +:+ pretty cols_red +:+ " cols";
    "";
    "STEPS PERFORMED";
    repeat_char "-" 15 ]
  ++ ((λ st, "- " +:+ step_text st) <$> done).

(** What a run leaves on disk: the frame written to [cleaned_data.csv]
    and the lines of [cleaning_report.txt]. *)
Record output := Output { cleaned_data : frame; cleaning_report : list string }.

(** [main]: [raw_file] is the content of [lending_club_raw.csv] when the
    file exists, [now] the clock reading used for the report. *)
Definition main (raw_file : option frame) (now : datetime) : option output :=
  raw ← raw_file;
  s ← clean raw;
  Some {| cleaned_data := df s;
          cleaning_report := report_lines now (shape raw) (shape (df s)) (steps s) |}.

End Conversion.

(** *** Vocabulary for the statements about this stage *)

(** [shrinks d d']: frame [d'] has some of the columns of [d], at most as
    many rows, and each of its rows shows, in the columns of [d'], the
    cells of a row of [d]. *)
Definition shrinks (d d' : frame) : Prop :=
  (∀ c, c ∈ columns d' → c ∈ columns d) ∧
  (length (columns d') ≤ length (columns d))%nat ∧
  (length (rows d') ≤ length (rows d))%nat ∧
  (∀ r', r' ∈ rows d' →
     ∃ r0, r0 ∈ rows d ∧ ∀ c, c ∈ columns d' → r' !! c = r0 !! c).

Definition non_null (c : string) (r : row) : Prop := isnull (col r c) = false.

(** The states between the steps of a run on [raw]. *)
Definition after_empty (raw : frame) : state := remove_empty_columns (State raw []).
Definition after_high (raw : frame) : state := remove_high_missing (after_empty raw).
Definition after_dupes (raw : frame) : state := remove_duplicates (after_high raw).

(** The state on entry to iteration [i] of the loop over [key_cols]. *)
Definition before_key (raw : frame) (i : nat) : state :=
  foldl clean_key_column (after_dupes raw) (take i key_cols).

(** What one iteration of the loop appends to [steps]. *)
Definition key_entry (s : state) (c : string) : list step :=
  if has_col (df s) c && bool_decide (0 < null_count (df s) c)%nat
  then [RemovedMissing (null_count (df s) c) c] else [].

Fixpoint key_entries (s : state) (l : list string) : list step :=
  match l with
  | [] => []
  | c :: l' => key_entry s c ++ key_entries (clean_key_column s c) l'
  end.


End Cleaning.

(** ** A reader for decimal literals

    Python's [float] on the plain spellings: an optional sign followed by
    [nan], [inf], [infinity] (in any case) or by digits with an optional
    fraction. Other spellings that Python accepts (exponents, underscores,
    surrounding blanks) are outside this reader; the theorems about the
    cleaning stage hold for every reader. *)

Definition lower (a : ascii) : ascii :=
  let n := nat_of_ascii a in
  if (65 <=? n)%nat && (n <=? 90)%nat then ascii_of_nat (n + 32) else a.

Fixpoint lower_str (s : string) : string :=
  match s with
  | EmptyString => ""
  | String a s' => String (lower a) (lower_str s')
  end.

(** Split at the first dot. *)
Fixpoint split_dot (s : string) : string * option string :=
  match s with
  | EmptyString => ("", None)
  | String a s' =>
      if decide (a = "."%char) then ("", Some s')
      else let '(i, f) := split_dot s' in (String a i, f)
  end.

Definition unsigned_decimal (s : string) : option Q :=
  let '(ip, fp) := split_dot s in
  let fp := default "" fp in
  if all_digits ip && all_digits fp
     && negb (bool_decide (ip = "") && bool_decide (fp = ""))
  then
    let scale := (10 ^ N.of_nat (String.length fp))%N in
    let n := (digits_value 0 ip * scale + digits_value 0 fp)%N in
    match scale with
    | Npos p => Some (Qred (Z.of_N n # p))
    | N0 => None
    end
  else None.

Definition float_of_string (s : string) : option cell :=
  let '(neg, body) :=
    match s with
    | String "-" t => (true, t)
    | String "+" t => (false, t)
    | _ => (false, s)
    end in
  let l := lower_str body in
  if bool_decide (l = "nan") then Some NaN
  else if bool_decide (l ∈ ["inf"; "infinity"]) then Some (Inf neg)
  else q ← unsigned_decimal body; Some (Num (if neg then Qred (- q) else q)).

Definition sample_raw : frame :=
  {| columns := ["loan_amnt"; "term"; "int_rate"; "grade"; "loan_status"; "memo"; "desc"];
     rows := [ mk_row [("loan_amnt", num_Z 20000); ("term", Str " 36 months");
                       ("int_rate", Str "13.56%"); ("grade", Str "C");
                       ("loan_status", Str "Fully Paid"); ("memo", NaN); ("desc", Str "x")];
               mk_row [("loan_amnt", num_Z 20000); ("term", Str " 36 months");
                       ("int_rate", Str "13.56%"); ("grade", Str "C");
                       ("loan_status", Str "Fully Paid"); ("memo", NaN); ("desc", Str "x")];
               mk_row [("loan_amnt", num_Z 5000); ("term", Str " 60 months");
                       ("int_rate", Str "7.5%"); ("grade", NaN);
                       ("loan_status", Str "Current"); ("memo", NaN); ("desc", NaN)];
               mk_row [("loan_amnt", num_Z 1000); ("term", Str " 36 months");
                       ("int_rate", Str "9%"); ("grade", Str "A");
                       ("loan_status", Str "Current"); ("memo", NaN); ("desc", NaN)] ] |}.

Definition sample_now : Cleaning.datetime := Cleaning.Datetime 2024 3 9 14 5 0.


Definition sample_clean_state : Cleaning.state := Eval vm_compute in
  default (Cleaning.State sample_raw []) (Cleaning.clean float_of_string sample_raw).

(** A raw frame with the five key columns where one interest rate is
    spelled [nan%]. *)
Definition nan_rate_raw : frame :=
  {| columns := ["loan_amnt"; "term"; "int_rate"; "grade"; "loan_status"];
     rows := [ mk_row [("loan_amnt", num_Z 1000); ("term", Str " 36 months");
                       ("int_rate", Str "nan%"); ("grade", Str "A");
                       ("loan_status", Str "Current")];
               mk_row [("loan_amnt", num_Z 20000); ("term", Str " 60 months");
                       ("int_rate", Str "13.56%"); ("grade", Str "C");
                       ("loan_status", Str "Fully Paid")] ] |}.

Definition nan_rate_state : Cleaning.state := Eval vm_compute in
  default (Cleaning.State nan_rate_raw [])
            (Cleaning.clean float_of_string nan_rate_raw).

(** A raw frame with the five key columns where [grade] is null in five
    rows out of six. *)
Definition sparse_grade_raw : frame :=
  {| columns := ["loan_amnt"; "term"; "int_rate"; "grade"; "loan_status"];
     rows := (λ n : Z,
                mk_row [("loan_amnt", num_Z (1000 * n)); ("term", Str " 36 months");
                        ("int_rate", Str "9.5%");
                        ("grade", if decide (n = 1%Z) then Str "A" else NaN);
                        ("loan_status", Str "Current")])
             <$> [1; 2; 3; 4; 5; 6]%Z |}.

Definition sparse_grade_state : Cleaning.state := Eval vm_compute in
  default (Cleaning.State sparse_grade_raw [])
            (Cleaning.clean float_of_string sparse_grade_raw).

Definition sample_clean_row : row :=
  default ∅ (head (rows (Cleaning.df sample_clean_state))).


(** A raw frame whose interest rates are numbers already and in which no
    step finds anything to remove. *)
Definition numeric_rates : frame :=
  {| columns := ["loan_amnt"; "int_rate"];
     rows := [ mk_row [("loan_amnt", num_Z 1000); ("int_rate", Num (27 # 2))];
               mk_row [("loan_amnt", num_Z 2000); ("int_rate", Num (29 # 4))] ] |}.




(** ** Vocabulary for further statements about the two stages *)

(** A raw file with a header line and no data line. *)
Definition header_only : frame :=
  {| columns := ["loan_amnt"; "term"; "int_rate"; "grade"; "loan_status"];
     rows := [] |}.

(** A frame whose amounts were read as texts. *)
Definition text_amount : frame :=
  {| columns := ["loan_amnt"; "grade"];
     rows := [ mk_row [("loan_amnt", Str "5k"); ("grade", Str "A")] ] |}.

(** The rows and the columns that a report entry says were removed. *)
Definition rows_removed (st : Cleaning.step) : nat :=
  match st with
  | Cleaning.RemovedDupes n | Cleaning.RemovedMissing n _ => n
  | _ => 0
  end.

Definition columns_removed (st : Cleaning.step) : nat :=
  match st with
  | Cleaning.RemovedEmpty n | Cleaning.RemovedHighMissing n => n
  | _ => 0
  end.

(** Row [r] has a value in every key column that frame [d] has. *)
Definition keys_filled (d : frame) (l : list string) (r : row) : Prop :=
  Forall (λ c, c ∈ columns d → isnull (col r c) = false) l.

(** A text cell. *)
Definition is_text (v : cell) : bool :=
  match v with Str _ => true | _ => false end.

(** The derived columns whose source columns frame [d] has, in the order
    in which the stage writes them. *)
Definition features_for (d : frame) : list string :=
  (if has_col d "loan_status" then ["is_good_loan"] else [])
  ++ (if has_col d "grade" then ["risk_category"] else [])
  ++ (if has_col d "annual_inc" && has_col d "loan_amnt"
      then ["income_loan_ratio"] else [])
  ++ (if has_col d "emp_length" then ["emp_years"] else [])
  ++ (if has_col d "loan_amnt" then ["loan_size_category"] else []).


(** What a step adds to the state, given whether its gate is open. *)
Definition adds (gate : bool) (c : string) (s s' : Transformation.state) : Prop :=
  Transformation.new_features s'
  = (Transformation.new_features s ++ (if gate then [c] else []))%list ∧
  length (Transformation.transformations s')
  = (length (Transformation.transformations s) + (if gate then 1 else 0))%nat ∧
  (∀ k, k ∈ columns (Transformation.df s') ↔
        k ∈ columns (Transformation.df s) ∨ (gate = true ∧ k = c)).

(** The values that the five steps compute from a row. *)
Definition good_loan_of (r : row) : cell :=
  Transformation.astype_int
    (Transformation.isin Transformation.good_loans (col r "loan_status")).

Definition risk_of (r : row) : cell :=
  Transformation.map_dict Transformation.risk_map (col r "grade").

Definition ratio_of (r : row) : option cell :=
  Transformation.truediv (col r "annual_inc") (col r "loan_amnt").

Definition years_of (r : row) : cell :=
  if Transformation.str_contains_plus (col r "emp_length") then num_Z 10
  else Transformation.extract_years (col r "emp_length").

Definition size_of (r : row) : option cell :=
  Transformation.cut Transformation.bins Transformation.labels (col r "loan_amnt").

(** Row [r] holds in column [c] the value that [f] computes from it. *)
Definition holds (c : string) (f : row → option cell) (r : row) : Prop :=
  ∃ v, f r = Some v ∧ r !! c = Some v.

(** Frame [d] already has column [c], filled with the values of [f],
    whenever the gate of the step is open. *)
Definition filled (gate : bool) (c : string) (f : row → option cell) (d : frame)
  : Prop :=
  gate = true → c ∈ columns d ∧ Forall (holds c f) (rows d).

(** [f] reads no column of [K]. *)
Definition reads_off (K : list string) (f : row → option cell) : Prop :=
  ∀ r r', agree_off K r r' → f r' = f r.


(** Column [c] of frame [d] passes steps 1 and 2 of the cleaning: the
    frame has rows and at most 80% of them are null in [c]. *)
Definition dense (d : frame) (c : string) : Prop :=
  (0 < nrows d)%nat ∧ (5 * Cleaning.null_count d c ≤ 4 * nrows d)%nat.

#[global] Instance dense_dec d c : Decision (dense d c).
Proof. unfold dense. apply _. Defined.

(** The loans of [d] whose status makes them good loans. *)
Definition good_rows (d : frame) : list row :=
  filter (λ r, col r "loan_status" = Str "Fully Paid"
               ∨ col r "loan_status" = Str "Current") (rows d).

(** The messages that the transformation records for frame [d], in the
    order of the steps whose source columns [d] has. *)
Definition messages_for (d : frame) : list string :=
  (if has_col d "loan_status"
   then ["Target: " +:+ fmt_thousands (Z.of_nat (length (good_rows d)))
         +:+ " good vs "
         +:+ fmt_thousands (Z.of_nat (nrows d - length (good_rows d)))
         +:+ " bad loans"]
   else [])
  ++ (if has_col d "grade" then ["Added risk categories"] else [])
  ++ (if has_col d "annual_inc" && has_col d "loan_amnt"
      then ["Added income to loan ratio"] else [])
  ++ (if has_col d "emp_length"
      then ["Converted employment length to years"] else [])
  ++ (if has_col d "loan_amnt" then ["Added loan size categories"] else []).

Example transform_sample :
  Transformation.df <$> Transformation.transform sample_cleaned =
  Some {| columns := ["loan_amnt"; "grade"; "emp_length"; "annual_inc"; "loan_status";
                      "is_good_loan"; "risk_category"; "income_loan_ratio";
                      "emp_years"; "loan_size_category"];
          rows := [ mk_row [("loan_amnt", num_Z 20000); ("grade", Str "C");
                            ("emp_length", Str "10+ years"); ("annual_inc", num_Z 60000);
                            ("loan_status", Str "Fully Paid");
                            ("is_good_loan", num_Z 1); ("risk_category", Str "Medium");
                            ("income_loan_ratio", num_Z 3); ("emp_years", num_Z 10);
                            ("loan_size_category", Str "Medium")];
                    mk_row [("loan_amnt", num_Z 5000); ("grade", Str "A");
                            ("emp_length", Str "< 1 year"); ("annual_inc", num_Z 42000);
                            ("loan_status", Str "Charged Off");
                            ("is_good_loan", num_Z 0); ("risk_category", Str "Low");
                            ("income_loan_ratio", Num (42 # 5)); ("emp_years", num_Z 1);
                            ("loan_size_category", Str "Very Small")];
                    mk_row [("loan_amnt", num_Z 35000); ("grade", Str "G");
                            ("emp_length", NaN); ("annual_inc", num_Z 90000);
                            ("loan_status", Str "Current");
                            ("is_good_loan", num_Z 1); ("risk_category", Str "High");
                            ("income_loan_ratio", Num (18 # 7)); ("emp_years", num_Z 0);
                            ("loan_size_category", Str "Large")] ] |}.
Proof. vm_compute. reflexivity. Qed.

Example float_of_string_pct : float_of_string (rstrip "%" "13.56%") = Some (Num (339 # 25)).
Proof. reflexivity. Qed.

Example float_of_string_bad : float_of_string (rstrip "%" "%") = None.
Proof. reflexivity. Qed.

Example main_sample :
  Cleaning.main float_of_string (Some sample_raw) sample_now =
  Some {| Cleaning.cleaned_data :=
            {| columns := ["loan_amnt"; "term"; "int_rate"; "grade"; "loan_status"; "desc"];
               rows := [ mk_row [("loan_amnt", num_Z 20000); ("term", Str " 36 months");
                                 ("int_rate", Num (339 # 25)); ("grade", Str "C");
                                 ("loan_status", Str "Fully Paid"); ("desc", Str "x")];
                         mk_row [("loan_amnt", num_Z 1000); ("term", Str " 36 months");
                                 ("int_rate", num_Z 9); ("grade", Str "A");
                                 ("loan_status", Str "Current"); ("desc", NaN)] ] |};
          Cleaning.cleaning_report :=
            [ "DATA CLEANING REPORT";
              "==================================================";
              "Date: 2024-03-09 14:05:00";
              "";
              "SUMMARY";
              "----------";
              "Original: 4 rows, 7 cols";
              "Final:    2 rows, 6 cols";
              "Reduction: 2 rows, 1 cols";
              "";
              "STEPS PERFORMED";
              "---------------";
              "- Removed 1 empty columns";
              "- Removed 1 duplicate rows";
              "- Removed 1 rows with missing grade";
              "- Converted int_rate to numeric" ] |}.
Proof. vm_compute. reflexivity. Qed.

Example fmt_thousands_sample : fmt_thousands 1234567 = "1,234,567".
Proof. reflexivity. Qed.

(** * Properties of the transformation stage *)

(** A closed decidable proposition, settled by evaluation. *)
Ltac by_compute :=
  match goal with
  | |- ?P => apply (bool_decide_unpack P); vm_compute; exact I
  end.

Module TransformationSpec.
Import Transformation.

Lemma agree_off_refl K r : agree_off K r r.
Proof. by intros k _. Qed.

Lemma agree_off_insert c v r : agree_off [c] r (<[c := v]> r).
Proof.
  intros k Hk. apply lookup_insert_ne. intros ->. apply Hk. by left.
Qed.

Lemma agree_off_trans K1 K2 r1 r2 r3 :
  agree_off K1 r1 r2 → agree_off K2 r2 r3 → agree_off (K1 ++ K2) r1 r3.
Proof.
  intros H1 H2 k Hk. rewrite elem_of_app in Hk.
  rewrite H2, H1; [done | |]; intros ?; apply Hk; auto.
Qed.

Lemma agree_off_col K r r' k : agree_off K r r' → k ∉ K → col r' k = col r k.
Proof. intros H Hk. unfold col. by rewrite H. Qed.

Lemma Forall2_agree_refl K (l : list row) : Forall2 (agree_off K) l l.
Proof. induction l; constructor; auto using agree_off_refl. Qed.

Lemma Forall2_agree_trans K1 K2 (l1 l2 l3 : list row) :
  Forall2 (agree_off K1) l1 l2 → Forall2 (agree_off K2) l2 l3 →
  Forall2 (agree_off (K1 ++ K2)) l1 l3.
Proof.
  intros H. revert l3. induction H; intros l3 H3; inversion H3; subst; constructor;
    eauto using agree_off_trans.
Qed.

(** A property of rows that only reads columns outside [K] survives a
    step that only writes columns of [K]. *)
Lemma Forall_agree (Q : row → Prop) K (l l' : list row) :
  (∀ r r', agree_off K r r' → Q r → Q r') →
  Forall2 (agree_off K) l l' → Forall Q l → Forall Q l'.
Proof.
  intros HQ H. induction H; intros HF; inversion HF; subst; constructor; eauto.
Qed.

(** *** Column assignment *)

Lemma set_columns_prefix c d : columns d `prefix_of` set_columns c d.
Proof.
  unfold set_columns. destruct (has_col d c); [done |]. by exists [c].
Qed.

Lemma set_columns_elem c d k : k ∈ set_columns c d ↔ k ∈ columns d ∨ k = c.
Proof.
  unfold set_columns, has_col. case_bool_decide.
  - split; [auto | intros [? | ->]; done].
  - rewrite elem_of_app, list_elem_of_singleton. done.
Qed.

Lemma set_col_rows c f d :
  Forall2 (λ r r', r' = <[c := f r]> r) (rows d) (rows (set_col c f d)).
Proof.
  simpl. induction (rows d); simpl; constructor; auto.
Qed.

Lemma set_colM_inv c f d d' :
  set_colM c f d = Some d' →
  columns d' = set_columns c d ∧
  Forall2 (λ r r', ∃ v, f r = Some v ∧ r' = <[c := v]> r) (rows d) (rows d').
Proof.
  unfold set_colM. intros H.
  destruct (mapM _ (rows d)) as [rs |] eqn:Hm; simplify_eq /=.
  split; [done |].
  apply mapM_Some_1 in Hm.
  eapply Forall2_impl; [exact Hm |].
  intros r r' Hr. simpl in Hr.
  destruct (f r) as [v |]; simplify_eq /=. eauto.
Qed.

Lemma set_col_agree c f d :
  Forall2 (agree_off [c]) (rows d) (rows (set_col c f d)).
Proof.
  eapply Forall2_impl; [apply set_col_rows |].
  intros r r' ->. apply agree_off_insert.
Qed.

Lemma set_colM_agree c f d d' :
  set_colM c f d = Some d' → Forall2 (agree_off [c]) (rows d) (rows d').
Proof.
  intros H. apply set_colM_inv in H as [_ H].
  eapply Forall2_impl; [exact H |].
  intros r r' (v & _ & ->). apply agree_off_insert.
Qed.

Lemma set_col_Forall c f d (Q : row → Prop) :
  (∀ r, Q (<[c := f r]> r)) → Forall Q (rows (set_col c f d)).
Proof.
  intros HQ. simpl. apply Forall_fmap, Forall_forall. intros r _. apply HQ.
Qed.

(** *** What each of the five steps writes *)

Lemma writes_id c s : writes c s s.
Proof. split; [done |]. split; [auto |]. apply Forall2_agree_refl. Qed.

Lemma writes_set_col c f t s :
  writes c s (record t c (set_col c f (df s)) s).
Proof.
  split; [apply set_columns_prefix |]. split.
  - intros k. simpl. by rewrite set_columns_elem.
  - apply set_col_agree.
Qed.

Lemma writes_set_colM c f t s d :
  set_colM c f (df s) = Some d → writes c s (record t c d s).
Proof.
  intros H. pose proof (set_colM_agree _ _ _ _ H) as Ha.
  apply set_colM_inv in H as [Hc _].
  split; [simpl; rewrite Hc; apply set_columns_prefix |]. split; [| done].
  intros k. simpl. by rewrite Hc, set_columns_elem.
Qed.

Lemma target_variable_writes s s' :
  target_variable s = Some s' → writes "is_good_loan" s s'.
Proof.
  unfold target_variable. destruct (has_col (df s) "loan_status"); intros [= <-].
  - apply writes_set_col.
  - apply writes_id.
Qed.

Lemma risk_categories_writes s s' :
  risk_categories s = Some s' → writes "risk_category" s s'.
Proof.
  unfold risk_categories. destruct (has_col (df s) "grade"); intros [= <-].
  - apply writes_set_col.
  - apply writes_id.
Qed.

Lemma income_ratio_writes s s' :
  income_ratio s = Some s' → writes "income_loan_ratio" s s'.
Proof.
  unfold income_ratio.
  destruct (has_col (df s) "annual_inc" && has_col (df s) "loan_amnt").
  - destruct (set_colM _ _ (df s)) as [d |] eqn:Hd; intros [= <-].
    eapply writes_set_colM, Hd.
  - intros [= <-]. apply writes_id.
Qed.

Lemma employment_years_writes s s' :
  employment_years s = Some s' → writes "emp_years" s s'.
Proof.
  unfold employment_years. destruct (has_col (df s) "emp_length").
  - destruct (str_accessor (df s) "emp_length"); intros [= <-].
    split; [| split].
    + simpl. trans (set_columns "emp_years" (df s)); [apply set_columns_prefix |].
      apply (set_columns_prefix "emp_years" (set_col _ _ _)).
    + intros k. simpl. rewrite set_columns_elem. simpl. rewrite set_columns_elem. tauto.
    + simpl. rewrite <- list_fmap_compose.
      apply Forall2_fmap_r, Forall_Forall2_diag, Forall_forall.
      intros r _ k Hk. simpl.
      assert ("emp_years" ≠ k) by (intros <-; apply Hk; by left).
      by rewrite !lookup_insert_ne.
  - intros [= <-]. apply writes_id.
Qed.

Lemma loan_size_categories_writes s s' :
  loan_size_categories s = Some s' → writes "loan_size_category" s s'.
Proof.
  unfold loan_size_categories. destruct (has_col (df s) "loan_amnt").
  - destruct (set_colM _ _ (df s)) as [d |] eqn:Hd; intros [= <-].
    eapply writes_set_colM, Hd.
  - intros [= <-]. apply writes_id.
Qed.

(** The intermediate states of a run that produced an output. *)
Lemma transform_inv cleaned out :
  transform cleaned = Some out →
  ∃ s1 s2 s3 s4,
    target_variable (State cleaned [] []) = Some s1 ∧
    risk_categories s1 = Some s2 ∧
    income_ratio s2 = Some s3 ∧
    employment_years s3 = Some s4 ∧
    loan_size_categories s4 = Some out.
Proof.
  unfold transform. intros H.
  destruct (target_variable _) as [s1 |]; [| done]. simpl in H.
  destruct (risk_categories s1) as [s2 |] eqn:H2; [| done]. simpl in H.
  destruct (income_ratio s2) as [s3 |] eqn:H3; [| done]. simpl in H.
  destruct (employment_years s3) as [s4 |] eqn:H4; [| done]. simpl in H.
  by exists s1, s2, s3, s4.
Qed.

Lemma writes_has_col c s s' k :
  writes c s s' → has_col (df s) k = true → has_col (df s') k = true.
Proof.
  intros [[t Ht] _]. unfold has_col. rewrite !bool_decide_eq_true, Ht, elem_of_app.
  auto.
Qed.

Lemma writes_rows c s s' : writes c s s' → Forall2 (agree_off [c]) (rows (df s)) (rows (df s')).
Proof. by intros (_ & _ & H). Qed.

Ltac notin :=
  match goal with
  | |- ?k ∉ ?K => apply (bool_decide_unpack (k ∉ K)); vm_compute; exact I
  end.


(** What a row looks like after an assignment to column [c]. *)
Lemma col_insert_eq c v (r : row) : col (<[c := v]> r) c = v.
Proof. unfold col. by rewrite lookup_insert_eq. Qed.

Lemma col_insert_ne c k v (r : row) : c ≠ k → col (<[c := v]> r) k = col r k.
Proof. intros. unfold col. by rewrite lookup_insert_ne. Qed.

(** From the state after a step to the processed output. *)
Lemma after_target_variable s1 s2 s3 s4 out :
  risk_categories s1 = Some s2 → income_ratio s2 = Some s3 →
  employment_years s3 = Some s4 → loan_size_categories s4 = Some out →
  Forall2 (agree_off ["risk_category"; "income_loan_ratio"; "emp_years";
                      "loan_size_category"]) (rows (df s1)) (rows (df out)).
Proof.
  intros H2 H3 H4 H5.
  apply risk_categories_writes, writes_rows in H2.
  apply income_ratio_writes, writes_rows in H3.
  apply employment_years_writes, writes_rows in H4.
  apply loan_size_categories_writes, writes_rows in H5.
  exact (Forall2_agree_trans _ _ _ _ _ H2
           (Forall2_agree_trans _ _ _ _ _ H3
              (Forall2_agree_trans _ _ _ _ _ H4 H5))).
Qed.

Lemma after_risk_categories s2 s3 s4 out :
  income_ratio s2 = Some s3 →
  employment_years s3 = Some s4 → loan_size_categories s4 = Some out →
  Forall2 (agree_off ["income_loan_ratio"; "emp_years"; "loan_size_category"])
    (rows (df s2)) (rows (df out)).
Proof.
  intros H3 H4 H5.
  apply income_ratio_writes, writes_rows in H3.
  apply employment_years_writes, writes_rows in H4.
  apply loan_size_categories_writes, writes_rows in H5.
  exact (Forall2_agree_trans _ _ _ _ _ H3 (Forall2_agree_trans _ _ _ _ _ H4 H5)).
Qed.

(** *** The derived values, step by step *)

Lemma target_variable_rows s s' :
  has_col (df s) "loan_status" = true → target_variable s = Some s' →
  Forall good_loan_row (rows (df s')).
Proof.
  unfold target_variable. intros -> [= <-]. simpl.
  apply Forall_fmap, Forall_forall. intros r _. unfold good_loan_row. simpl.
  by rewrite col_insert_eq, col_insert_ne.
Qed.

Lemma risk_categories_rows s s' :
  has_col (df s) "grade" = true → risk_categories s = Some s' →
  Forall risk_row (rows (df s')).
Proof.
  unfold risk_categories. intros -> [= <-]. simpl.
  apply Forall_fmap, Forall_forall. intros r _. unfold risk_row. simpl.
  by rewrite col_insert_eq, col_insert_ne.
Qed.


Lemma loan_size_categories_rows s s' :
  has_col (df s) "loan_amnt" = true → loan_size_categories s = Some s' →
  Forall loan_size_row (rows (df s')).
Proof.
  unfold loan_size_categories. intros ->.
  destruct (set_colM _ _ _) as [d |] eqn:Hd; intros [= <-]. simpl.
  apply set_colM_inv in Hd as [_ Hd].
  eapply Forall2_Forall_r; [exact Hd |].
  apply Forall_forall. intros r _ r' (v & Hv & ->). unfold loan_size_row.
  by rewrite col_insert_eq, col_insert_ne.
Qed.

Lemma has_col_true d c : c ∈ columns d → has_col d c = true.
Proof. intros. unfold has_col. by apply bool_decide_eq_true. Qed.

Lemma transport (Q : row → Prop) K (l l' : list row) r' :
  Forall2 (agree_off K) l l' → Forall Q l →
  (∀ r r', agree_off K r r' → Q r → Q r') → r' ∈ l' → Q r'.
Proof.
  intros H2 HQ Hpres Hin.
  assert (Forall Q l') as HF by (eapply Forall_agree; eauto).
  by apply (proj1 (Forall_forall _ _) HF).
Qed.

Lemma good_loan_row_processed cleaned out r :
  "loan_status" ∈ columns cleaned → transform cleaned = Some out →
  r ∈ rows (df out) → good_loan_row r.
Proof.
  intros Hc Ht Hr.
  apply transform_inv in Ht as (s1 & s2 & s3 & s4 & H1 & H2 & H3 & H4 & H5).
  eapply transport; [eapply after_target_variable; eauto | | | exact Hr].
  - eapply target_variable_rows; [| exact H1]. by apply has_col_true.
  - intros r0 r0' Ha. unfold good_loan_row.
    by rewrite !(agree_off_col _ _ _ _ Ha) by notin.
Qed.

(** C1. In the processed output of an input that has a [loan_status]
    column, [is_good_loan] is 1 exactly on the rows whose [loan_status] is
    "Fully Paid" or "Current", and it is 0 on every other row. *)
Theorem is_good_loan_iff (cleaned : frame) (out : state) (r : row) :
  "loan_status" ∈ columns cleaned →
  transform cleaned = Some out →
  r ∈ rows (df out) →
  (col r "is_good_loan" = num_Z 1 ↔
     col r "loan_status" = Str "Fully Paid" ∨ col r "loan_status" = Str "Current") ∧
  (col r "is_good_loan" = num_Z 1 ∨ col r "is_good_loan" = num_Z 0).
Proof.
  intros Hc Ht Hr.
  pose proof (good_loan_row_processed _ _ _ Hc Ht Hr) as Hg.
  unfold good_loan_row in Hg. rewrite Hg.
  destruct (col r "loan_status") as [| s | q | b]; simpl;
    try (split; [split; [done | by intros [? | ?]] | by right]).
  unfold good_loans. case_bool_decide as Hs; simpl.
  - split; [| by left]. split; [intros _ | done].
    rewrite !elem_of_cons, elem_of_nil in Hs.
    destruct Hs as [-> | [-> | []]]; auto.
  - split; [| by right]. split; [done |].
    intros [[= ->] | [= ->]]; exfalso; apply Hs; [by left | by right; left].
Qed.

Lemma is_good_loan_iff_witness :
  "loan_status" ∈ columns sample_cleaned ∧
  transform sample_cleaned = Some sample_processed ∧
  sample_processed_row ∈ rows (df sample_processed) ∧
  ((col sample_processed_row "is_good_loan" = num_Z 1 ↔
      col sample_processed_row "loan_status" = Str "Fully Paid" ∨
      col sample_processed_row "loan_status" = Str "Current") ∧
   (col sample_processed_row "is_good_loan" = num_Z 1 ∨
    col sample_processed_row "is_good_loan" = num_Z 0)).
Proof.
  assert ("loan_status" ∈ columns sample_cleaned) as H1 by by_compute.
  assert (transform sample_cleaned = Some sample_processed) as H2
    by (vm_compute; reflexivity).
  assert (sample_processed_row ∈ rows (df sample_processed)) as H3 by by_compute.
  exact (conj H1 (conj H2 (conj H3
           (is_good_loan_iff sample_cleaned sample_processed sample_processed_row
              H1 H2 H3)))).
Defined.

Lemma risk_row_processed cleaned out r :
  "grade" ∈ columns cleaned → transform cleaned = Some out →
  r ∈ rows (df out) → risk_row r.
Proof.
  intros Hc Ht Hr.
  apply transform_inv in Ht as (s1 & s2 & s3 & s4 & H1 & H2 & H3 & H4 & H5).
  eapply transport; [eapply after_risk_categories; eauto | | | exact Hr].
  - eapply risk_categories_rows; [| exact H2].
    eapply writes_has_col; [by apply target_variable_writes |].
    by apply has_col_true.
  - intros r0 r0' Ha. unfold risk_row.
    by rewrite !(agree_off_col _ _ _ _ Ha) by notin.
Qed.

Lemma risk_map_other s :
  s ∉ ["A"; "B"; "C"; "D"; "E"; "F"; "G"] → risk_map !! s = None.
Proof. intros Hs. by apply not_elem_of_list_to_map_1. Qed.

(** C2. In the processed output of an input that has a [grade] column,
    [risk_category] is "Low" for the grades A and B, "Medium" for C and D,
    "High" for E, F and G, and null for every other content of [grade]. *)
Theorem risk_category_of_grade (cleaned : frame) (out : state) (r : row) :
  "grade" ∈ columns cleaned →
  transform cleaned = Some out →
  r ∈ rows (df out) →
  (col r "grade" ∈ [Str "A"; Str "B"] → col r "risk_category" = Str "Low") ∧
  (col r "grade" ∈ [Str "C"; Str "D"] → col r "risk_category" = Str "Medium") ∧
  (col r "grade" ∈ [Str "E"; Str "F"; Str "G"] → col r "risk_category" = Str "High") ∧
  (col r "grade" ∉ [Str "A"; Str "B"; Str "C"; Str "D"; Str "E"; Str "F"; Str "G"] →
   col r "risk_category" = NaN).
Proof.
  intros Hc Ht Hr.
  pose proof (risk_row_processed _ _ _ Hc Ht Hr) as Hg.
  unfold risk_row in Hg. rewrite Hg. clear Hg.
  repeat split; intros Hin.
  - rewrite !elem_of_cons, elem_of_nil in Hin. by destruct Hin as [-> | [-> | []]].
  - rewrite !elem_of_cons, elem_of_nil in Hin. by destruct Hin as [-> | [-> | []]].
  - rewrite !elem_of_cons, elem_of_nil in Hin.
    by destruct Hin as [-> | [-> | [-> | []]]].
  - destruct (col r "grade") as [| s | q | b]; simpl; try done.
    rewrite risk_map_other; [done |].
    intros Hs. apply Hin.
    rewrite !elem_of_cons, elem_of_nil in Hs. rewrite !elem_of_cons, elem_of_nil.
    intuition (subst; auto).
Qed.

Lemma risk_category_of_grade_witness :
  "grade" ∈ columns sample_cleaned ∧
  transform sample_cleaned = Some sample_processed ∧
  sample_processed_row ∈ rows (df sample_processed) ∧
  col sample_processed_row "grade" = Str "C" ∧
  col sample_processed_row "risk_category" = Str "Medium".
Proof.
  assert ("grade" ∈ columns sample_cleaned) as H1 by by_compute.
  assert (transform sample_cleaned = Some sample_processed) as H2
    by (vm_compute; reflexivity).
  assert (sample_processed_row ∈ rows (df sample_processed)) as H3 by by_compute.
  assert (col sample_processed_row "grade" = Str "C") as H4 by reflexivity.
  refine (conj H1 (conj H2 (conj H3 (conj H4 _)))).
  apply (risk_category_of_grade sample_cleaned sample_processed sample_processed_row
           H1 H2 H3).
  rewrite H4. by_compute.
Defined.

(** *** Texts: the first integer and the plus sign *)





Lemma contains_plus_inv s :
  contains_plus s = true → ∃ pre post, s = pre +:+ "+" +:+ post.
Proof.
  induction s as [| a s IH]; simpl; [done |].
  destruct (decide (a = "+"%char)) as [-> | Hne]; intros H.
  - by exists "", s.
  - destruct (IH H) as (pre & post & ->). by exists (String a pre), post.
Qed.




(** *** The loan size bins *)

Lemma cell_ltb_num x q : cell_ltb (num_Z x) (Num q) = true ↔ (inject_Z x < q)%Q.
Proof.
  unfold num_Z. simpl. rewrite negb_true_iff.
  destruct (Qle_bool q (inject_Z x)) eqn:E.
  - apply Qle_bool_iff in E. split; [done |]. intros H.
    exfalso. by apply (Qlt_not_le _ _ H).
  - split; [intros _ | done]. apply Qnot_le_lt. intros H.
    apply Qle_bool_iff in H. congruence.
Qed.

(** [pd.cut] on a finite number: the bins are open on the left and closed
    on the right. *)
Lemma cut_bins_num q :
  cut bins labels (Num q) =
  Some (if Qle_bool q 0 then NaN
        else if Qle_bool q 5000 then Str "Very Small"
        else if Qle_bool q 15000 then Str "Small"
        else if Qle_bool q 25000 then Str "Medium"
        else if Qle_bool q 35000 then Str "Large"
        else Str "Very Large").
Proof.
  unfold cut, searchsorted_left, bins.
  rewrite !filter_cons, filter_nil.
  repeat match goal with
  | |- context [decide (cell_ltb (num_Z ?x) (Num q) = true)] =>
      let H := fresh "H" in
      destruct (decide (cell_ltb (num_Z x) (Num q) = true)) as [H | H];
      rewrite cell_ltb_num in H; change (inject_Z x) with (x # 1) in H
  end;
  destruct (decide (cell_ltb (Inf false) (Num q) = true)) as [Hi | Hi];
    try (by simpl in Hi);
  repeat match goal with
  | |- context [Qle_bool q ?x] =>
      let E := fresh "E" in
      destruct (Qle_bool q x) eqn:E;
      [apply Qle_bool_iff in E
      | assert (¬ (q <= x)%Q) by (rewrite <- Qle_bool_iff; congruence); clear E]
  end; simpl; try reflexivity; exfalso; lra.
Qed.

Lemma loan_size_row_processed cleaned out r :
  "loan_amnt" ∈ columns cleaned → transform cleaned = Some out →
  r ∈ rows (df out) → loan_size_row r.
Proof.
  intros Hc Ht Hr.
  apply transform_inv in Ht as (s1 & s2 & s3 & s4 & H1 & H2 & H3 & H4 & H5).
  assert (Forall loan_size_row (rows (df out))) as HF.
  { eapply loan_size_categories_rows; [| exact H5].
    eapply writes_has_col; [by apply employment_years_writes |].
    eapply writes_has_col; [by apply income_ratio_writes |].
    eapply writes_has_col; [by apply risk_categories_writes |].
    eapply writes_has_col; [by apply target_variable_writes |].
    by apply has_col_true. }
  by apply (proj1 (Forall_forall _ _) HF).
Qed.

(** C4, as the code has it. In the processed output of an input that has
    a [loan_amnt] column, the size category of an amount [q] is
    "Very Small" for 0 < q <= 5000, "Small" for 5000 < q <= 15000,
    "Medium" for 15000 < q <= 25000, "Large" for 25000 < q <= 35000,
    "Very Large" for q > 35000, and null for q <= 0 and for a null
    amount. *)
Theorem loan_size_category_bins (cleaned : frame) (out : state) (r : row) :
  "loan_amnt" ∈ columns cleaned →
  transform cleaned = Some out →
  r ∈ rows (df out) →
  (∀ q, col r "loan_amnt" = Num q →
     ((q <= 0)%Q → col r "loan_size_category" = NaN) ∧
     ((0 < q)%Q → (q <= 5000)%Q → col r "loan_size_category" = Str "Very Small") ∧
     ((5000 < q)%Q → (q <= 15000)%Q → col r "loan_size_category" = Str "Small") ∧
     ((15000 < q)%Q → (q <= 25000)%Q → col r "loan_size_category" = Str "Medium") ∧
     ((25000 < q)%Q → (q <= 35000)%Q → col r "loan_size_category" = Str "Large") ∧
     ((35000 < q)%Q → col r "loan_size_category" = Str "Very Large")) ∧
  (col r "loan_amnt" = NaN → col r "loan_size_category" = NaN).
Proof.
  intros Hc Ht Hr.
  pose proof (loan_size_row_processed _ _ _ Hc Ht Hr) as Hg.
  unfold loan_size_row in Hg. split.
  - intros q Hq. rewrite Hq, cut_bins_num in Hg. injection Hg as <-.
    repeat match goal with
    | |- context [Qle_bool q ?x] =>
        let E := fresh "E" in
        destruct (Qle_bool q x) eqn:E;
        [apply Qle_bool_iff in E
        | assert (¬ (q <= x)%Q) by (rewrite <- Qle_bool_iff; congruence); clear E]
    end;
    repeat split; intros; try reflexivity; exfalso; lra.
  - intros Hq. rewrite Hq in Hg. simpl in Hg. by injection Hg as <-.
Qed.

Lemma loan_size_category_bins_witness :
  "loan_amnt" ∈ columns sample_cleaned ∧
  transform sample_cleaned = Some sample_processed ∧
  sample_processed_row ∈ rows (df sample_processed) ∧
  col sample_processed_row "loan_amnt" = Num 20000 ∧
  col sample_processed_row "loan_size_category" = Str "Medium".
Proof.
  assert ("loan_amnt" ∈ columns sample_cleaned) as H1 by by_compute.
  assert (transform sample_cleaned = Some sample_processed) as H2
    by (vm_compute; reflexivity).
  assert (sample_processed_row ∈ rows (df sample_processed)) as H3 by by_compute.
  assert (col sample_processed_row "loan_amnt" = Num 20000) as H4 by reflexivity.
  refine (conj H1 (conj H2 (conj H3 (conj H4 _)))).
  apply (proj1 (loan_size_category_bins sample_cleaned sample_processed
                  sample_processed_row H1 H2 H3) 20000%Q H4); lra.
Defined.

(** C4 as the specification words it fails at the edges of the bins: an
    amount of exactly 5000 is put in "Very Small", not in "Small". *)
Lemma loan_size_category_at_5000 :
  "loan_amnt" ∈ columns sample_cleaned ∧
  transform sample_cleaned = Some sample_processed ∧
  sample_row_5000 ∈ rows (df sample_processed) ∧
  col sample_row_5000 "loan_amnt" = Num 5000 ∧
  col sample_row_5000 "loan_size_category" = Str "Very Small" ∧
  col sample_row_5000 "loan_size_category" ≠ Str "Small".
Proof.
  split; [by_compute |]. split; [vm_compute; reflexivity |].
  split; [by_compute |]. split; [reflexivity |]. split; [reflexivity | by_compute].
Qed.

(** *** What the stage leaves alone *)

Lemma writes_trans c1 K s1 s2 s3 :
  writes c1 s1 s2 →
  (columns (df s2) `prefix_of` columns (df s3) ∧
   (∀ k, k ∈ columns (df s3) → k ∈ columns (df s2) ∨ k ∈ K) ∧
   Forall2 (agree_off K) (rows (df s2)) (rows (df s3))) →
  columns (df s1) `prefix_of` columns (df s3) ∧
  (∀ k, k ∈ columns (df s3) → k ∈ columns (df s1) ∨ k ∈ c1 :: K) ∧
  Forall2 (agree_off (c1 :: K)) (rows (df s1)) (rows (df s3)).
Proof.
  intros (Hp1 & Hc1 & Ha1) (Hp2 & Hc2 & Ha2). split; [by etrans |]. split.
  - intros k Hk. rewrite elem_of_cons.
    destruct (Hc2 k Hk) as [Hk2 | ?]; [| auto].
    destruct (Hc1 k Hk2); auto.
  - apply (Forall2_agree_trans [c1] K _ _ _ Ha1 Ha2).
Qed.

Lemma writes_last c s1 s2 :
  writes c s1 s2 →
  columns (df s1) `prefix_of` columns (df s2) ∧
  (∀ k, k ∈ columns (df s2) → k ∈ columns (df s1) ∨ k ∈ [c]) ∧
  Forall2 (agree_off [c]) (rows (df s1)) (rows (df s2)).
Proof.
  intros (Hp & Hc & Ha). split; [done |]. split; [| done].
  intros k Hk. rewrite list_elem_of_singleton. auto.
Qed.

(** The stage as a whole: the input columns stay in front and in order,
    only derived names are added, and outside the derived names no cell
    changes. *)
Lemma transform_frame cleaned out :
  transform cleaned = Some out →
  columns cleaned `prefix_of` columns (df out) ∧
  (∀ k, k ∈ columns (df out) → k ∈ columns cleaned ∨ k ∈ derived) ∧
  Forall2 (agree_off derived) (rows cleaned) (rows (df out)).
Proof.
  intros Ht.
  apply transform_inv in Ht as (s1 & s2 & s3 & s4 & H1 & H2 & H3 & H4 & H5).
  apply target_variable_writes in H1. apply risk_categories_writes in H2.
  apply income_ratio_writes in H3. apply employment_years_writes in H4.
  apply loan_size_categories_writes, writes_last in H5.
  exact (writes_trans _ _ _ _ _ H1
           (writes_trans _ _ _ _ _ H2
              (writes_trans _ _ _ _ _ H3 (writes_trans _ _ _ _ _ H4 H5)))).
Qed.

(** C10, as the code has it. The processed output has as many rows as the
    input; the input columns stay, in order, in front of the added ones;
    every added column has one of the five derived names; and row by row
    every cell outside the five derived names is the cell of the input. *)
Theorem transform_preserves_input (cleaned : frame) (out : state) :
  transform cleaned = Some out →
  length (rows (df out)) = length (rows cleaned) ∧
  columns cleaned `prefix_of` columns (df out) ∧
  (∀ k, k ∈ columns (df out) → k ∈ columns cleaned ∨ k ∈ derived) ∧
  Forall2 (λ r r', ∀ k, k ∉ derived → r' !! k = r !! k)
          (rows cleaned) (rows (df out)).
Proof.
  intros Ht. destruct (transform_frame _ _ Ht) as (Hp & Hc & Ha).
  split; [symmetry; by eapply Forall2_length |]. done.
Qed.

Lemma transform_preserves_input_witness :
  transform sample_cleaned = Some sample_processed ∧
  length (rows (df sample_processed)) = length (rows sample_cleaned) ∧
  columns sample_cleaned `prefix_of` columns (df sample_processed) ∧
  (∀ k, k ∈ columns (df sample_processed) → k ∈ columns sample_cleaned ∨ k ∈ derived) ∧
  Forall2 (λ r r', ∀ k, k ∉ derived → r' !! k = r !! k)
          (rows sample_cleaned) (rows (df sample_processed)).
Proof.
  assert (transform sample_cleaned = Some sample_processed) as H
    by (vm_compute; reflexivity).
  exact (conj H (transform_preserves_input sample_cleaned sample_processed H)).
Defined.

(** C10 as the specification words it fails on an input that already has
    a column with a derived name: the stage overwrites that column. *)
Lemma transform_overwrites_is_good_loan :
  "is_good_loan" ∈ columns relabelled ∧
  transform relabelled = Some relabelled_processed ∧
  series relabelled "is_good_loan" = [num_Z 1] ∧
  series (df relabelled_processed) "is_good_loan" = [num_Z 0].
Proof.
  split; [by_compute |]. split; [vm_compute; reflexivity |].
  split; reflexivity.
Qed.

End TransformationSpec.

(** * Properties of the cleaning stage *)

Module CleaningSpec.
Import Cleaning.

Lemma shrinks_refl d : shrinks d d.
Proof. repeat split; auto. intros r' Hr. by exists r'. Qed.

Lemma shrinks_trans d1 d2 d3 : shrinks d1 d2 → shrinks d2 d3 → shrinks d1 d3.
Proof.
  intros (Hc1 & Hn1 & Hr1 & Hx1) (Hc2 & Hn2 & Hr2 & Hx2).
  split; [auto |]. split; [lia |]. split; [lia |].
  intros r3 H3. destruct (Hx2 r3 H3) as (r2 & H2 & He2).
  destruct (Hx1 r2 H2) as (r1 & H1 & He1).
  exists r1. split; [done |]. intros c Hc. rewrite He2, He1; auto.
Qed.

Lemma select_columns_shrinks keep d : shrinks d (select_columns keep d).
Proof.
  split; [| split; [| split]]; simpl.
  - intros c Hc. by apply list_elem_of_filter in Hc as [_ ?].
  - apply length_filter.
  - by rewrite length_fmap.
  - intros r' Hr. apply list_elem_of_fmap in Hr as (r0 & -> & Hr0).
    exists r0. split; [done |]. intros c Hc.
    apply list_elem_of_filter in Hc as [Hk _].
    rewrite map_lookup_filter. destruct (r0 !! c) as [v |]; simpl; [| done].
    by rewrite option_guard_True.
Qed.

Lemma rows_subset_shrinks d l :
  l ⊆ rows d → (length l ≤ length (rows d))%nat →
  shrinks d {| columns := columns d; rows := l |}.
Proof.
  intros Hsub Hlen. repeat split; auto. simpl. intros r' Hr. exists r'. auto.
Qed.

Lemma dedup_first_subset seen l : dedup_first seen l ⊆ l.
Proof.
  revert seen. induction l as [| r l IH]; intros seen; simpl; [done |].
  destruct (decide (r ∈ seen)).
  - intros x Hx. right. by apply (IH seen).
  - intros x Hx. apply elem_of_cons in Hx as [-> | Hx]; [by left |].
    right. by apply (IH (r :: seen)).
Qed.

Lemma dedup_first_length seen l : (length (dedup_first seen l) ≤ length l)%nat.
Proof.
  revert seen. induction l as [| r l IH]; intros seen; simpl; [done |].
  destruct (decide (r ∈ seen)); simpl.
  - specialize (IH seen). lia.
  - specialize (IH (r :: seen)). lia.
Qed.

Lemma drop_duplicates_columns d : columns (drop_duplicates d) = columns d.
Proof. unfold drop_duplicates. by destruct (_ || _). Qed.

Lemma drop_duplicates_shrinks d : shrinks d (drop_duplicates d).
Proof.
  unfold drop_duplicates. destruct (_ || _); [apply shrinks_refl |].
  apply rows_subset_shrinks; [apply dedup_first_subset | apply dedup_first_length].
Qed.

Lemma dropna_rows_shrinks c d : shrinks d (dropna_rows c d).
Proof.
  apply rows_subset_shrinks; [| apply length_filter].
  intros r Hr. by apply list_elem_of_filter in Hr as [_ ?].
Qed.

Lemma clean_key_column_columns s c :
  columns (df (clean_key_column s c)) = columns (df s).
Proof.
  unfold clean_key_column. destruct (has_col _ _); [| done].
  by case_bool_decide.
Qed.

Lemma clean_key_column_shrinks s c : shrinks (df s) (df (clean_key_column s c)).
Proof.
  unfold clean_key_column. destruct (has_col _ _); [| apply shrinks_refl].
  case_bool_decide; [apply dropna_rows_shrinks | apply shrinks_refl].
Qed.

Lemma clean_key_columns_shrinks l s :
  shrinks (df s) (df (foldl clean_key_column s l)).
Proof.
  revert s. induction l as [| c l IH]; intros s; simpl; [apply shrinks_refl |].
  eapply shrinks_trans; [apply clean_key_column_shrinks | apply IH].
Qed.

Lemma clean_key_columns_columns l s :
  columns (df (foldl clean_key_column s l)) = columns (df s).
Proof.
  revert s. induction l as [| c l IH]; intros s; simpl; [done |].
  by rewrite IH, clean_key_column_columns.
Qed.

(** Steps 1 to 4 only take columns and rows away. *)
Lemma reduce_shrinks raw : shrinks raw (df (reduce raw)).
Proof.
  unfold reduce.
  eapply shrinks_trans; [| apply clean_key_columns_shrinks]. simpl.
  eapply shrinks_trans; [| apply drop_duplicates_shrinks].
  eapply shrinks_trans; apply select_columns_shrinks.
Qed.

(** *** Conversion of a percentage column *)

Section Conversion.

Variable float_of_str : string → option cell.

Lemma set_colM_present c f d d' :
  has_col d c = true → set_colM c f d = Some d' →
  columns d' = columns d ∧
  Forall2 (λ r r', ∃ v, f r = Some v ∧ r' = <[c := v]> r) (rows d) (rows d').
Proof.
  intros Hc H. apply TransformationSpec.set_colM_inv in H as [Hcols Hrows].
  split; [| done]. rewrite Hcols. unfold set_columns. by rewrite Hc.
Qed.

Lemma convert_percentage_inv c s s' :
  convert_percentage float_of_str c s = Some s' →
  columns (df s') = columns (df s) ∧
  Forall2 (λ r r', r' = r ∨
             ∃ v, pct_to_float float_of_str (col r c) = Some v ∧ r' = <[c := v]> r)
          (rows (df s)) (rows (df s')) ∧
  steps s' = (steps s ++ (if has_col (df s) c then [Converted c] else []))%list.
Proof.
  unfold convert_percentage. destruct (has_col (df s) c) eqn:Hc.
  - destruct (set_colM _ _ _) as [d |] eqn:Hd; intros [= <-]. simpl.
    apply set_colM_present in Hd as [Hcols Hrows]; [| done].
    split; [done |]. split; [| done].
    eapply Forall2_impl; [exact Hrows |]. intros r r' ?. by right.
  - intros [= <-]. split; [done |]. split; [| by rewrite app_nil_r].
    apply Forall_Forall2_diag, Forall_true. by left.
Qed.

Lemma clean_inv raw s :
  clean float_of_str raw = Some s →
  ∃ s5, convert_percentage float_of_str "int_rate" (reduce raw) = Some s5 ∧
        convert_percentage float_of_str "revol_util" s5 = Some s.
Proof.
  unfold clean. intros H.
  destruct (convert_percentage _ "int_rate" _) as [s5 |]; [| done]. by exists s5.
Qed.

(** The cleaned frame against the raw one. *)
Lemma clean_shrinks raw s :
  clean float_of_str raw = Some s →
  (∀ c, c ∈ columns (df s) → c ∈ columns raw) ∧
  (length (columns (df s)) ≤ length (columns raw))%nat ∧
  (length (rows (df s)) ≤ length (rows raw))%nat.
Proof.
  intros H. apply clean_inv in H as (s5 & H1 & H2).
  apply convert_percentage_inv in H1 as (Hc1 & Hr1 & _).
  apply convert_percentage_inv in H2 as (Hc2 & Hr2 & _).
  destruct (reduce_shrinks raw) as (Hc & Hn & Hr & _).
  apply Forall2_length in Hr1, Hr2.
  rewrite Hc2, Hc1. split; [done |]. split; [done |]. lia.
Qed.

End Conversion.


(** *** The key columns after the row filter *)

Lemma filter_length_0 {A} (P : A → Prop) `{!∀ x, Decision (P x)} (l : list A) :
  length (filter P l) = 0%nat → Forall (λ x, ¬ P x) l.
Proof.
  induction l as [| x l IH]; [constructor |].
  rewrite filter_cons. destruct (decide (P x)); simpl; [done |].
  intros Hl. constructor; auto.
Qed.

Lemma null_count_0 d c : null_count d c = 0%nat → Forall (non_null c) (rows d).
Proof.
  unfold null_count. intros H. apply filter_length_0 in H.
  eapply Forall_impl; [exact H |]. intros r Hr. unfold non_null. simpl in Hr.
  destruct (isnull (col r c)); [by destruct Hr | done].
Qed.

Lemma clean_key_column_non_null s c :
  has_col (df s) c = true → Forall (non_null c) (rows (df (clean_key_column s c))).
Proof.
  unfold clean_key_column. intros ->. case_bool_decide as Hm; simpl.
  - apply Forall_forall. intros r Hr. by apply list_elem_of_filter in Hr as [? _].
  - apply null_count_0. lia.
Qed.

Lemma clean_key_column_rows s c : rows (df (clean_key_column s c)) ⊆ rows (df s).
Proof.
  unfold clean_key_column. destruct (has_col _ _); [| done].
  case_bool_decide; [| done]. simpl.
  intros r Hr. by apply list_elem_of_filter in Hr as [_ ?].
Qed.

Lemma clean_key_columns_rows l s : rows (df (foldl clean_key_column s l)) ⊆ rows (df s).
Proof.
  revert s. induction l as [| c l IH]; intros s; simpl; [done |].
  etrans; [apply IH | apply clean_key_column_rows].
Qed.

Lemma Forall_subseteq {A} (Q : A → Prop) (l k : list A) :
  k ⊆ l → Forall Q l → Forall Q k.
Proof.
  intros Hs HQ. apply Forall_forall. intros x Hx.
  by apply (proj1 (Forall_forall _ _) HQ), Hs.
Qed.

Lemma has_col_clean_key_column s c k :
  has_col (df (clean_key_column s c)) k = has_col (df s) k.
Proof. unfold has_col. by rewrite clean_key_column_columns. Qed.

(** After the loop, a key column that is present has no null. *)
Lemma clean_key_columns_non_null l s c :
  c ∈ l → has_col (df s) c = true →
  Forall (non_null c) (rows (df (foldl clean_key_column s l))).
Proof.
  revert s. induction l as [| c0 l IH]; intros s Hin Hc; simpl.
  - by apply elem_of_nil in Hin.
  - apply elem_of_cons in Hin as [-> | Hin].
    + eapply Forall_subseteq; [apply clean_key_columns_rows |].
      by apply clean_key_column_non_null.
    + apply IH; [done |]. by rewrite has_col_clean_key_column.
Qed.

Lemma has_col_iff d c : has_col d c = true ↔ c ∈ columns d.
Proof. unfold has_col. apply bool_decide_eq_true. Qed.

Lemma reduce_non_null raw c :
  c ∈ key_cols → c ∈ columns (df (reduce raw)) →
  Forall (non_null c) (rows (df (reduce raw))).
Proof.
  unfold reduce. intros Hk Hc. rewrite clean_key_columns_columns in Hc.
  apply clean_key_columns_non_null; [done |]. by apply has_col_iff.
Qed.

Lemma Forall2_elem_of_r {A B} (R : A → B → Prop) (l : list A) (k : list B) y :
  Forall2 R l k → y ∈ k → ∃ x, x ∈ l ∧ R x y.
Proof.
  induction 1 as [| x y' l k HR _ IH]; intros Hy.
  - by apply elem_of_nil in Hy.
  - apply elem_of_cons in Hy as [-> | Hy].
    + exists x. split; [by left | done].
    + destruct (IH Hy) as (x' & ? & ?). exists x'. split; [by right | done].
Qed.

Section KeyColumns.

Variable float_of_str : string → option cell.

(** A row of the cleaned frame, traced back through the two conversions
    to a row of the frame left by steps 1 to 4. *)
Lemma clean_row_origin raw s r :
  clean float_of_str raw = Some s → r ∈ rows (df s) →
  ∃ r4, r4 ∈ rows (df (reduce raw)) ∧
    (∀ k, k ≠ "int_rate" → k ≠ "revol_util" → r !! k = r4 !! k) ∧
    (col r "int_rate" = col r4 "int_rate" ∨
     pct_to_float float_of_str (col r4 "int_rate") = Some (col r "int_rate")).
Proof.
  intros Hc Hr. apply clean_inv in Hc as (s5 & H1 & H2).
  apply convert_percentage_inv in H1 as (_ & Hr1 & _).
  apply convert_percentage_inv in H2 as (_ & Hr2 & _).
  destruct (Forall2_elem_of_r _ _ _ _ Hr2 Hr) as (r5 & Hr5 & Hrel2).
  destruct (Forall2_elem_of_r _ _ _ _ Hr1 Hr5) as (r4 & Hr4 & Hrel1).
  exists r4. split; [done |].
  assert (∀ k, k ≠ "revol_util" → r !! k = r5 !! k) as E2.
  { intros k Hk. destruct Hrel2 as [-> | (v & _ & ->)]; [done |].
    by rewrite lookup_insert_ne. }
  assert (col r "int_rate" = col r5 "int_rate") as E2'.
  { unfold col. by rewrite E2. }
  split.
  - intros k Hk1 Hk2. rewrite E2 by done.
    destruct Hrel1 as [-> | (v & _ & ->)]; [done |]. by rewrite lookup_insert_ne.
  - rewrite E2'. destruct Hrel1 as [-> | (v & Hv & ->)]; [by left |].
    right. by rewrite TransformationSpec.col_insert_eq.
Qed.

Lemma clean_columns raw s :
  clean float_of_str raw = Some s → columns (df s) = columns (df (reduce raw)).
Proof.
  intros Hc. apply clean_inv in Hc as (s5 & H1 & H2).
  apply convert_percentage_inv in H1 as (Hc1 & _).
  apply convert_percentage_inv in H2 as (Hc2 & _). congruence.
Qed.

(** C3, as the code has it. In the cleaned output every key column that is
    still a column of the output has no null; for [int_rate] this needs
    that no raw rate, once its trailing percent signs are stripped, reads
    as a NaN. *)
Theorem key_columns_present_non_null (raw : frame) (s : state) (c : string) (r : row) :
  clean float_of_str raw = Some s →
  c ∈ key_cols →
  c ∈ columns (df s) →
  r ∈ rows (df s) →
  (c = "int_rate" →
   ∀ r0 t, r0 ∈ rows raw → col r0 "int_rate" = Str t →
           float_of_str (rstrip "%" t) ≠ Some NaN) →
  isnull (col r c) = false.
Proof.
  intros Hc Hk Hcol Hr Hrate.
  destruct (clean_row_origin _ _ _ Hc Hr) as (r4 & Hr4 & Hother & Hir).
  rewrite (clean_columns _ _ Hc) in Hcol.
  pose proof (reduce_non_null raw c Hk Hcol) as Hnn.
  apply (proj1 (Forall_forall _ _) Hnn) in Hr4 as Hnn4. unfold non_null in Hnn4.
  destruct (decide (c = "int_rate")) as [-> | Hne].
  - destruct Hir as [-> | Hv]; [done |].
    destruct (reduce_shrinks raw) as (_ & _ & _ & Horig).
    destruct (Horig r4 Hr4) as (r0 & Hr0 & Hsame).
    assert (col r4 "int_rate" = col r0 "int_rate") as E.
    { unfold col. by rewrite Hsame. }
    destruct (col r4 "int_rate") as [| t | q | b] eqn:E4; simpl in Hv, Hnn4;
      try (by injection Hv as <-).
    destruct (col r "int_rate") eqn:Er; try done.
    exfalso. by apply (Hrate eq_refl r0 t).
  - assert (col r c = col r4 c) as ->; [| done].
    unfold col. rewrite Hother; [done | done |].
    intros ->. revert Hk. unfold key_cols. rewrite !elem_of_cons, elem_of_nil.
    intros [? | [? | [? | [? | [? | []]]]]]; done.
Qed.

End KeyColumns.

Lemma key_columns_present_non_null_witness :
  clean float_of_string sample_raw = Some sample_clean_state ∧
  "int_rate" ∈ key_cols ∧
  "int_rate" ∈ columns (df sample_clean_state) ∧
  sample_clean_row ∈ rows (df sample_clean_state) ∧
  isnull (col sample_clean_row "int_rate") = false.
Proof.
  assert (clean float_of_string sample_raw = Some sample_clean_state) as H1
    by (vm_compute; reflexivity).
  assert ("int_rate" ∈ key_cols) as H2 by by_compute.
  assert ("int_rate" ∈ columns (df sample_clean_state)) as H3 by by_compute.
  assert (sample_clean_row ∈ rows (df sample_clean_state)) as H4 by by_compute.
  refine (conj H1 (conj H2 (conj H3 (conj H4 _)))).
  apply (key_columns_present_non_null float_of_string sample_raw sample_clean_state
           "int_rate" sample_clean_row H1 H2 H3 H4).
  intros _ r0 t Hr0.
  apply (proj1 (Forall_forall
    (λ r0, ∀ t, col r0 "int_rate" = Str t → float_of_string (rstrip "%" t) ≠ Some NaN)
    (rows sample_raw))); [| exact Hr0].
  repeat constructor; intros t' [= <-]; by_compute.
Defined.

(** C3 as the specification words it fails: the raw frame has the five key
    columns, and the cleaned frame has a null interest rate. *)
Lemma key_column_null_after_cleaning :
  (∀ c, c ∈ key_cols → c ∈ columns nan_rate_raw) ∧
  clean float_of_string nan_rate_raw = Some nan_rate_state ∧
  columns (df nan_rate_state) = columns nan_rate_raw ∧
  series (df nan_rate_state) "int_rate" = [NaN; Num (339 # 25)].
Proof.
  split.
  - apply (proj1 (Forall_forall _ _)). by_compute.
  - split; [vm_compute; reflexivity |]. split; reflexivity.
Qed.

(** A key column that is more than 80% null leaves the frame in step 2,
    before the row filter of step 4: the rows never get filtered on it. *)
Lemma sparse_key_column_dropped :
  (∀ c, c ∈ key_cols → c ∈ columns sparse_grade_raw) ∧
  clean float_of_string sparse_grade_raw = Some sparse_grade_state ∧
  columns (df sparse_grade_state) = ["loan_amnt"; "term"; "int_rate"; "loan_status"] ∧
  nrows (df sparse_grade_state) = 6%nat.
Proof.
  split.
  - apply (proj1 (Forall_forall _ _)). by_compute.
  - split; [vm_compute; reflexivity |]. split; reflexivity.
Qed.

(** *** The clock and the report *)

Section Clock.
Variable float_of_str : string → option cell.




End Clock.


(** *** The list of steps in the report *)

Lemma reduce_eq raw : reduce raw = foldl clean_key_column (after_dupes raw) key_cols.
Proof. reflexivity. Qed.

Lemma before_key_S raw i c :
  key_cols !! i = Some c →
  before_key raw (S i) = clean_key_column (before_key raw i) c.
Proof.
  intros Hi. unfold before_key.
  by rewrite (take_S_r _ _ _ Hi), foldl_app.
Qed.

Lemma filter_all {A} (P : A → Prop) `{!∀ x, Decision (P x)} (l : list A) :
  Forall P l → filter P l = l.
Proof.
  induction 1 as [| x l Hx _ IH]; [done |].
  by rewrite filter_cons, decide_True, IH.
Qed.

Lemma non_null_count d c :
  (length (filter (λ r, isnull (col r c) = false) (rows d)) + null_count d c
   = nrows d)%nat.
Proof.
  unfold null_count, nrows. induction (rows d) as [| r l IH]; [done |].
  rewrite !filter_cons. destruct (isnull (col r c)) eqn:E.
  - rewrite decide_False, decide_True by done. simpl. lia.
  - rewrite decide_True, decide_False by done. simpl. lia.
Qed.

Lemma key_entry_elem e s c :
  e ∈ key_entry s c →
  e = RemovedMissing (null_count (df s) c) c ∧
  has_col (df s) c = true ∧ (0 < null_count (df s) c)%nat.
Proof.
  unfold key_entry. destruct (has_col (df s) c); simpl; [| by intros ?%elem_of_nil].
  case_bool_decide; [| by intros ?%elem_of_nil].
  intros ->%list_elem_of_singleton. done.
Qed.

Lemma clean_key_column_steps s c :
  steps (clean_key_column s c) = (steps s ++ key_entry s c)%list.
Proof.
  unfold clean_key_column, key_entry. destruct (has_col (df s) c); simpl.
  - by case_bool_decide; simpl; rewrite ?app_nil_r.
  - by rewrite app_nil_r.
Qed.

Lemma clean_key_column_nrows s c :
  (nrows (df (clean_key_column s c)) < nrows (df s))%nat ↔ key_entry s c ≠ [].
Proof.
  unfold clean_key_column, key_entry. destruct (has_col (df s) c); simpl.
  - case_bool_decide as Hm; simpl.
    + split; [done | intros _]. unfold nrows at 1. simpl.
      pose proof (non_null_count (df s) c). lia.
    + split; [lia | done].
  - split; [lia | done].
Qed.

(** The row filter of an iteration does not depend on the count that
    guards it: with no null in the column it filters nothing. *)
Lemma clean_key_column_df s c :
  has_col (df s) c = true → df (clean_key_column s c) = dropna_rows c (df s).
Proof.
  unfold clean_key_column. intros ->. case_bool_decide as Hm; [done |].
  assert (null_count (df s) c = 0%nat) as H0 by lia.
  apply null_count_0 in H0. unfold dropna_rows.
  rewrite filter_all by exact H0. by destruct (df s).
Qed.

Lemma clean_key_columns_steps l s :
  steps (foldl clean_key_column s l) = (steps s ++ key_entries s l)%list.
Proof.
  revert s. induction l as [| c l IH]; intros s; simpl; [by rewrite app_nil_r |].
  by rewrite IH, clean_key_column_steps, app_assoc.
Qed.

Lemma key_entries_elem e l s :
  e ∈ key_entries s l ↔
  ∃ i c, l !! i = Some c ∧ e ∈ key_entry (foldl clean_key_column s (take i l)) c.
Proof.
  revert s. induction l as [| c0 l IH]; intros s; simpl.
  - split; [by intros ?%elem_of_nil | by intros (i & c & ? & _)].
  - rewrite elem_of_app, IH. split.
    + intros [H | (i & c & Hi & H)].
      * by exists 0%nat, c0.
      * by exists (S i), c.
    + intros ([| i] & c & Hi & H); simpl in *.
      * injection Hi as <-. by left.
      * right. by exists i, c.
Qed.

Lemma NoDup_key_cols : NoDup key_cols.
Proof. by_compute. Qed.

Section Steps.

Variable float_of_str : string → option cell.

(** The steps of a finished run: what steps 1 to 3 reported, then the
    loop, then the two conversions. *)
Lemma clean_steps raw s :
  clean float_of_str raw = Some s →
  steps s =
  (steps (after_dupes raw) ++ key_entries (after_dupes raw) key_cols
   ++ (if has_col (df s) "int_rate" then [Converted "int_rate"] else [])
   ++ (if has_col (df s) "revol_util" then [Converted "revol_util"] else []))%list.
Proof.
  intros Hc. apply clean_inv in Hc as (s5 & H1 & H2).
  apply convert_percentage_inv in H1 as (Hc1 & _ & Hs1).
  apply convert_percentage_inv in H2 as (Hc2 & _ & Hs2).
  rewrite Hs2, Hs1, reduce_eq, clean_key_columns_steps.
  unfold has_col. rewrite Hc2, Hc1, reduce_eq. by rewrite <- !app_assoc.
Qed.

Lemma steps_after_dupes raw :
  steps (after_dupes raw) =
  ((if bool_decide (0 < length (columns raw) - length (columns (df (after_empty raw))))%nat
    then [RemovedEmpty (length (columns raw) - length (columns (df (after_empty raw))))]
    else [])
   ++ (if bool_decide (0 < length (high_missing (df (after_empty raw))))%nat
       then [RemovedHighMissing (length (high_missing (df (after_empty raw))))]
       else [])
   ++ (if bool_decide (0 < nrows (df (after_high raw)) - nrows (df (after_dupes raw)))%nat
       then [RemovedDupes (nrows (df (after_high raw)) - nrows (df (after_dupes raw)))]
       else []))%list.
Proof.
  unfold after_dupes, remove_duplicates. cbn [steps df].
  unfold after_high, remove_high_missing. cbn [steps df].
  unfold after_empty, remove_empty_columns. cbn [steps df].
  repeat case_bool_decide; reflexivity.
Qed.

Lemma high_missing_removed d :
  (length (columns (drop_columns (high_missing d) d)) < length (columns d))%nat ↔
  (0 < length (high_missing d))%nat.
Proof.
  unfold drop_columns. simpl. split.
  - intros Hlt. destruct (high_missing d) as [| c l] eqn:E; simpl; [| lia].
    rewrite filter_all in Hlt; [lia |].
    apply Forall_forall. intros c _. by rewrite bool_decide_eq_false_2 by apply not_elem_of_nil.
  - intros Hlen. destruct (high_missing d) as [| c l] eqn:E; simpl in Hlen; [lia |].
    assert (c ∈ high_missing d) as Hc by (rewrite E; by left).
    apply length_filter_lt with (x := c).
    + unfold high_missing in Hc. by apply list_elem_of_filter in Hc as [_ ?].
    + rewrite <- E. by rewrite bool_decide_eq_true_2.
Qed.

Lemma elem_of_if_singleton {A} (b : bool) (x e : A) :
  e ∈ (if b then [x] else []) ↔ b = true ∧ e = x.
Proof.
  destruct b.
  - rewrite list_elem_of_singleton. intuition.
  - rewrite elem_of_nil. intuition discriminate.
Qed.

(** Where an entry of the final list comes from. *)
Lemma clean_steps_elem raw s e :
  clean float_of_str raw = Some s →
  e ∈ steps s ↔
  (e = RemovedEmpty (length (columns raw) - length (columns (df (after_empty raw)))) ∧
   (length (columns (df (after_empty raw))) < length (columns raw))%nat) ∨
  (e = RemovedHighMissing (length (high_missing (df (after_empty raw)))) ∧
   (0 < length (high_missing (df (after_empty raw))))%nat) ∨
  (e = RemovedDupes (nrows (df (after_high raw)) - nrows (df (after_dupes raw))) ∧
   (nrows (df (after_dupes raw)) < nrows (df (after_high raw)))%nat) ∨
  (∃ i c, key_cols !! i = Some c ∧ e ∈ key_entry (before_key raw i) c) ∨
  (e = Converted "int_rate" ∧ "int_rate" ∈ columns (df s)) ∨
  (e = Converted "revol_util" ∧ "revol_util" ∈ columns (df s)).
Proof.
  intros Hc. rewrite (clean_steps _ _ Hc), steps_after_dupes.
  rewrite !elem_of_app, !elem_of_if_singleton, key_entries_elem.
  rewrite !bool_decide_eq_true, !has_col_iff.
  unfold before_key. split.
  - intros [[H | [H | H]] | [H | [H | H]]].
    + left. split; [tauto | lia].
    + right; left. tauto.
    + right; right; left. split; [tauto | lia].
    + right; right; right; left. done.
    + right; right; right; right; left. tauto.
    + right; right; right; right; right. tauto.
  - intros [H | [H | [H | [H | [H | H]]]]].
    + left; left. split; [lia | tauto].
    + left; right; left. tauto.
    + left; right; right. split; [lia | tauto].
    + right; left. done.
    + right; right; left. tauto.
    + right; right; right. tauto.
Qed.

(** C7, as the code has it. The report lists step (a), (b), (c) and each
    iteration of step (d) exactly when it removed a column or a row; it
    lists the conversion of [int_rate] and of [revol_util] exactly when
    that column is in the frame, whether or not a value changes. The row
    filter of an iteration of step (d) is the same with or without the
    guard on the count of nulls. *)
Theorem steps_reported (raw : frame) (s : state) :
  clean float_of_str raw = Some s →
  ((∃ n, RemovedEmpty n ∈ steps s) ↔
   (length (columns (df (after_empty raw))) < length (columns raw))%nat) ∧
  ((∃ n, RemovedHighMissing n ∈ steps s) ↔
   (length (columns (df (after_high raw)))
    < length (columns (df (after_empty raw))))%nat) ∧
  ((∃ n, RemovedDupes n ∈ steps s) ↔
   (nrows (df (after_dupes raw)) < nrows (df (after_high raw)))%nat) ∧
  (∀ i c, key_cols !! i = Some c →
     ((∃ n, RemovedMissing n c ∈ steps s) ↔
      (nrows (df (before_key raw (S i))) < nrows (df (before_key raw i)))%nat) ∧
     (c ∈ columns (df (before_key raw i)) →
      df (before_key raw (S i)) = dropna_rows c (df (before_key raw i)))) ∧
  (∀ c, Converted c ∈ steps s ↔
        c ∈ ["int_rate"; "revol_util"] ∧ c ∈ columns (df s)).
Proof.
  intros Hc. pose proof (λ e, clean_steps_elem raw s e Hc) as He.
  split; [| split; [| split; [| split]]].
  - split.
    + intros (n & Hn). apply He in Hn.
      destruct Hn as [[_ ?] | [[? _] | [[? _] | [(i & c & _ & H) | [[? _] | [? _]]]]]];
        try done.
      by apply key_entry_elem in H as [? _].
    + intros Hlt. eexists. apply He. left. done.
  - change (df (after_high raw))
      with (drop_columns (high_missing (df (after_empty raw))) (df (after_empty raw))).
    rewrite high_missing_removed. split.
    + intros (n & Hn). apply He in Hn.
      destruct Hn as [[? _] | [[_ ?] | [[? _] | [(i & c & _ & H) | [[? _] | [? _]]]]]];
        try done.
      by apply key_entry_elem in H as [? _].
    + intros Hlt. eexists. apply He. right; left. done.
  - split.
    + intros (n & Hn). apply He in Hn.
      destruct Hn as [[? _] | [[? _] | [[_ ?] | [(i & c & _ & H) | [[? _] | [? _]]]]]];
        try done.
      by apply key_entry_elem in H as [? _].
    + intros Hlt. eexists. apply He. right; right; left. done.
  - intros i c Hi. rewrite (before_key_S _ _ _ Hi). split.
    + rewrite clean_key_column_nrows. split.
      * intros (n & Hn). apply He in Hn.
        destruct Hn as [[? _] | [[? _] | [[? _] | [(j & c' & Hj & H) | [[? _] | [? _]]]]]];
          try done.
        pose proof (key_entry_elem _ _ _ H) as [Heq _]. injection Heq as _ <-.
        rewrite (NoDup_lookup _ _ _ _ NoDup_key_cols Hi Hj).
        intros E. rewrite E in H. by apply elem_of_nil in H.
      * intros Hne. destruct (key_entry (before_key raw i) c) as [| e l] eqn:E; [done |].
        assert (e ∈ key_entry (before_key raw i) c) as Hin by (rewrite E; by left).
        pose proof (key_entry_elem _ _ _ Hin) as [-> _].
        eexists. apply He. right; right; right; left. by exists i, c.
    + intros Hin. apply clean_key_column_df. by apply has_col_iff.
  - intros c. rewrite He, !elem_of_cons, elem_of_nil. split.
    + intros [[? _] | [[? _] | [[? _] | [(j & c' & _ & H) | [[[= ->] ?] | [[= ->] ?]]]]]];
        try done; [| tauto | tauto].
      by apply key_entry_elem in H as [? _].
    + intros [[-> | [-> | []]] Hin].
      * right; right; right; right; left. done.
      * right; right; right; right; right. done.
Qed.

End Steps.

Lemma steps_reported_witness :
  clean float_of_string sample_raw = Some sample_clean_state ∧
  (∃ n, RemovedEmpty n ∈ steps sample_clean_state) ∧
  (length (columns (df (after_empty sample_raw))) < length (columns sample_raw))%nat.
Proof.
  assert (clean float_of_string sample_raw = Some sample_clean_state) as H1
    by (vm_compute; reflexivity).
  assert (length (columns (df (after_empty sample_raw))) < length (columns sample_raw))%nat
    as H2 by by_compute.
  refine (conj H1 (conj _ H2)).
  exact (proj2 (proj1 (steps_reported float_of_string sample_raw sample_clean_state H1))
           H2).
Defined.

(** C7 as the specification words it fails: on a frame whose rates are
    numbers the run changes nothing, and yet the report lists the
    conversion. *)
Lemma conversion_reported_without_effect :
  clean float_of_string numeric_rates =
  Some {| df := numeric_rates; steps := [Converted "int_rate"] |}.
Proof. vm_compute. reflexivity. Qed.

(** *** Running the stage on its own output *)








(** *** A frame on which the steps find nothing to do *)






Lemma filter_none {A} (P : A → Prop) `{!∀ x, Decision (P x)} (l : list A) :
  Forall (λ x, ¬ P x) l → filter P l = [].
Proof.
  induction 1 as [| x l Hx _ IH]; [done |].
  by rewrite filter_cons, decide_False, IH.
Qed.



(** A column with at most 80% nulls is not a high-missing column. *)
Lemma missing_pct_le d c :
  (5 * null_count d c ≤ 4 * nrows d)%nat → Qle_bool (missing_pct d c) (8 # 10) = true.
Proof.
  intros Hle. apply Qle_bool_iff. unfold missing_pct.
  destruct (nrows d) as [| n] eqn:En.
  - assert (null_count d c = 0%nat) as -> by lia. by vm_compute.
  - apply Qle_shift_div_r.
    + unfold Qlt, inject_Z. simpl. lia.
    + unfold Qle, Qmult, inject_Z. simpl Qnum. simpl Qden. lia.
Qed.



Section Again.

Variable float_of_str : string → option cell.

(** Python's [float] returns a float, never a text. *)
Hypothesis float_of_str_float :
  ∀ t v, float_of_str t = Some v → ∀ x, v ≠ Str x.

Lemma pct_to_float_float v w :
  pct_to_float float_of_str v = Some w → ∀ x, w ≠ Str x.
Proof.
  destruct v as [| t | q | b]; simpl; intros H x; try (by injection H as <-).
  by apply (float_of_str_float _ _ H).
Qed.


Lemma convert_percentage_cases c s s' :
  convert_percentage float_of_str c s = Some s' →
  (has_col (df s) c = false ∧ s' = s) ∨
  (has_col (df s) c = true ∧ columns (df s') = columns (df s) ∧
   Forall2 (λ r r', ∃ v, pct_to_float float_of_str (col r c) = Some v ∧
                          r' = <[c := v]> r)
           (rows (df s)) (rows (df s'))).
Proof.
  unfold convert_percentage. destruct (has_col (df s) c) eqn:Hc.
  - destruct (set_colM _ _ _) as [d |] eqn:Hd; intros [= <-]. right.
    apply set_colM_present in Hd as [Hcols Hrows]; done.
  - intros [= <-]. by left.
Qed.



(** After a run the two percentage columns hold no text. *)
Lemma clean_percentage_cells raw s c r :
  clean float_of_str raw = Some s →
  c ∈ ["int_rate"; "revol_util"] → c ∈ columns (df s) → r ∈ rows (df s) →
  ∀ x, col r c ≠ Str x.
Proof.
  intros Hc Hin Hcol Hr.
  apply clean_inv in Hc as (s5 & H1 & H2).
  apply convert_percentage_cases in H1, H2.
  rewrite !elem_of_cons, elem_of_nil in Hin. destruct Hin as [-> | [-> | []]].
  - assert (∀ r5, r5 ∈ rows (df s5) → ∀ x, col r5 "int_rate" ≠ Str x) as H5.
    { destruct H1 as [[Hno E5] | (_ & _ & Hrows)].
      - exfalso. subst s5. destruct H2 as [[_ ->] | (_ & Hcols & _)].
        + apply has_col_iff in Hcol. congruence.
        + rewrite Hcols in Hcol. apply has_col_iff in Hcol. congruence.
      - intros r5 Hr5.
        destruct (Forall2_elem_of_r _ _ _ _ Hrows Hr5) as (r4 & _ & v & Hv & ->).
        rewrite TransformationSpec.col_insert_eq. by eapply pct_to_float_float. }
    destruct H2 as [[_ ->] | (_ & _ & Hrows)]; [by apply H5 |].
    destruct (Forall2_elem_of_r _ _ _ _ Hrows Hr) as (r5 & Hr5 & v & _ & ->).
    rewrite TransformationSpec.col_insert_ne by done. by apply H5.
  - destruct H2 as [[Hno ->] | (_ & _ & Hrows)].
    + apply has_col_iff in Hcol. congruence.
    + destruct (Forall2_elem_of_r _ _ _ _ Hrows Hr) as (r5 & _ & v & Hv & ->).
      rewrite TransformationSpec.col_insert_eq. by eapply pct_to_float_float.
Qed.




End Again.

Lemma float_of_string_float t v : float_of_string t = Some v → ∀ x, v ≠ Str x.
Proof.
  unfold float_of_string.
  destruct (match t with
            | String "-" t' => (true, t')
            | String "+" t' => (false, t')
            | _ => (false, t)
            end) as [neg body].
  case_bool_decide; [by intros [= <-] |].
  case_bool_decide; [by intros [= <-] |].
  destruct (unsigned_decimal body) as [q |]; simpl; [by intros [= <-] | done].
Qed.



End CleaningSpec.

(** C6. Cleaning adds no row and no column: the cleaned frame has at most
    as many rows and columns as the raw one and each of its columns is a
    raw column. Transformation removes no column: every column of its
    input is a column of the processed output. *)
Theorem stages_shrink_then_grow (float_of_str : string → option cell)
    (raw : frame) (s : Cleaning.state)
    (cleaned : frame) (out : Transformation.state) :
  Cleaning.clean float_of_str raw = Some s →
  Transformation.transform cleaned = Some out →
  ((length (rows (Cleaning.df s)) ≤ length (rows raw))%nat ∧
   (length (columns (Cleaning.df s)) ≤ length (columns raw))%nat ∧
   (∀ c, c ∈ columns (Cleaning.df s) → c ∈ columns raw)) ∧
  (∀ c, c ∈ columns cleaned → c ∈ columns (Transformation.df out)).
Proof.
  intros Hc Ht. split.
  - destruct (CleaningSpec.clean_shrinks _ _ _ Hc) as (H1 & H2 & H3). auto.
  - destruct (TransformationSpec.transform_frame _ _ Ht) as ([k Hk] & _).
    intros c Hin. rewrite Hk, elem_of_app. by left.
Qed.

Lemma stages_shrink_then_grow_witness :
  Cleaning.clean float_of_string sample_raw = Some sample_clean_state ∧
  Transformation.transform sample_cleaned = Some sample_processed ∧
  ((length (rows (Cleaning.df sample_clean_state)) ≤ length (rows sample_raw))%nat ∧
   (length (columns (Cleaning.df sample_clean_state)) ≤ length (columns sample_raw))%nat ∧
   (∀ c, c ∈ columns (Cleaning.df sample_clean_state) → c ∈ columns sample_raw)) ∧
  (∀ c, c ∈ columns sample_cleaned → c ∈ columns (Transformation.df sample_processed)).
Proof.
  assert (Cleaning.clean float_of_string sample_raw = Some sample_clean_state) as H1
    by (vm_compute; reflexivity).
  assert (Transformation.transform sample_cleaned = Some sample_processed) as H2
    by (vm_compute; reflexivity).
  exact (conj H1 (conj H2
           (stages_shrink_then_grow float_of_string sample_raw sample_clean_state
              sample_cleaned sample_processed H1 H2))).
Defined.


(** * Further properties of the cleaning stage *)

Module CleaningMore.
Import Cleaning CleaningSpec.

Lemma Forall2_elem_of_l {A B} (R : A → B → Prop) (l : list A) (k : list B) x :
  Forall2 R l k → x ∈ l → ∃ y, y ∈ k ∧ R x y.
Proof.
  induction 1 as [| x' y l k HR _ IH]; intros Hx.
  - by apply elem_of_nil in Hx.
  - apply elem_of_cons in Hx as [-> | Hx].
    + exists y. split; [by left | done].
    + destruct (IH Hx) as (y' & ? & ?). exists y'. split; [by right | done].
Qed.

Section Values.

Variable float_of_str : string → option cell.


End Values.

Section Failure.

Variable float_of_str : string → option cell.





End Failure.

Section Numbers.

Variable float_of_str : string → option cell.

Hypothesis float_of_str_float :
  ∀ t v, float_of_str t = Some v → ∀ x, v ≠ Str x.

(** X3. After the stage, [int_rate] and [revol_util] hold numbers and nulls
    only: no text is left in them. *)
Theorem percentage_columns_numeric (raw : frame) (s : state) (c : string) (r : row) :
  clean float_of_str raw = Some s →
  c ∈ ["int_rate"; "revol_util"] →
  c ∈ columns (df s) →
  r ∈ rows (df s) →
  col r c = NaN ∨ (∃ q, col r c = Num q) ∨ (∃ b, col r c = Inf b).
Proof.
  intros Hc Hin Hcol Hr.
  pose proof (clean_percentage_cells float_of_str float_of_str_float
                raw s c r Hc Hin Hcol Hr) as Hno.
  destruct (col r c) as [| t | q | b]; eauto. by destruct (Hno t).
Qed.

End Numbers.

(** *** The report against the frame *)

Lemma sum_rows_removed_key_entries l s :
  nrows (df s) =
  (nrows (df (foldl clean_key_column s l))
   + sum_list_with rows_removed (key_entries s l))%nat.
Proof.
  revert s. induction l as [| c l IH]; intros s; simpl; [lia |].
  rewrite sum_list_with_app. pose proof (IH (clean_key_column s c)) as IHc.
  assert (nrows (df s)
          = nrows (df (clean_key_column s c))
            + sum_list_with rows_removed (key_entry s c))%nat as E; [| lia].
  unfold clean_key_column, key_entry. destruct (has_col (df s) c); simpl; [| lia].
  case_bool_decide; simpl; [| lia].
  pose proof (non_null_count (df s) c). unfold nrows at 2. simpl. lia.
Qed.

Lemma sum_columns_removed_key_entries l s :
  sum_list_with columns_removed (key_entries s l) = 0%nat.
Proof.
  revert s. induction l as [| c l IH]; intros s; simpl; [done |].
  rewrite sum_list_with_app, IH.
  unfold key_entry. destruct (_ && _); simpl; lia.
Qed.

Lemma filter_partition_length {A} (P : A → Prop) `{!∀ x, Decision (P x)} (l : list A) :
  (length (filter P l) + length (filter (λ x, ¬ P x) l) = length l)%nat.
Proof.
  induction l as [| x l IH]; [done |].
  rewrite !filter_cons. destruct (decide (P x)).
  - rewrite decide_False by tauto. simpl. lia.
  - rewrite decide_True by done. simpl. lia.
Qed.

Lemma filter_ext_in {A} (P Q : A → Prop)
    `{!∀ x, Decision (P x), !∀ x, Decision (Q x)} (l : list A) :
  (∀ x, x ∈ l → P x ↔ Q x) → filter P l = filter Q l.
Proof.
  induction l as [| x l IH]; intros Hext; [done |].
  rewrite !filter_cons.
  rewrite IH by (intros y Hy; apply Hext; by right).
  destruct (decide (P x)) as [Hp | Hp].
  - by rewrite decide_True by (apply Hext; [by left | done]).
  - by rewrite decide_False by (rewrite <- Hext; [done | by left]).
Qed.

Lemma drop_high_missing_length d :
  (length (columns (drop_columns (high_missing d) d)) + length (high_missing d)
   = length (columns d))%nat.
Proof.
  unfold drop_columns, high_missing. simpl.
  set (P := λ c, Qle_bool (missing_pct d c) (8 # 10) = false).
  rewrite <- (filter_partition_length P (columns d)), Nat.add_comm. f_equal. f_equal.
  apply filter_ext_in. intros c Hc. rewrite negb_true_iff.
  rewrite bool_decide_eq_false, list_elem_of_filter. tauto.
Qed.

Lemma nrows_after_empty raw : nrows (df (after_empty raw)) = nrows raw.
Proof.
  unfold nrows, after_empty, remove_empty_columns, dropna_columns_all, select_columns.
  cbn [df rows]. apply length_fmap.
Qed.

Lemma nrows_after_high raw : nrows (df (after_high raw)) = nrows (df (after_empty raw)).
Proof.
  unfold nrows, after_high, remove_high_missing, drop_columns, select_columns.
  cbn [df rows]. apply length_fmap.
Qed.

Lemma nrows_after_dupes raw :
  (nrows (df (after_dupes raw)) ≤ nrows (df (after_high raw)))%nat.
Proof. apply (drop_duplicates_shrinks (df (after_high raw))). Qed.

Lemma columns_after_empty raw :
  (length (columns (df (after_empty raw))) ≤ length (columns raw))%nat.
Proof.
  unfold after_empty, remove_empty_columns, dropna_columns_all, select_columns.
  cbn [df columns]. apply length_filter.
Qed.

Lemma columns_after_high raw :
  (length (columns (df (after_high raw))) + length (high_missing (df (after_empty raw)))
   = length (columns (df (after_empty raw))))%nat.
Proof. apply (drop_high_missing_length (df (after_empty raw))). Qed.

Lemma columns_after_dupes raw :
  columns (df (after_dupes raw)) = columns (df (after_high raw)).
Proof. apply (drop_duplicates_columns (df (after_high raw))). Qed.

Section Report.

Variable float_of_str : string → option cell.

Lemma clean_nrows raw s :
  clean float_of_str raw = Some s → nrows (df s) = nrows (df (reduce raw)).
Proof.
  intros Hc. apply clean_inv in Hc as (s5 & H1 & H2).
  apply convert_percentage_inv in H1 as (_ & Hr1 & _).
  apply convert_percentage_inv in H2 as (_ & Hr2 & _).
  apply Forall2_length in Hr1, Hr2. unfold nrows. lia.
Qed.

(** X4. The entries of the report add up: the rows that the entries say were
    removed are the rows that are gone, and so for the columns. *)
Theorem report_accounts_for_reduction (raw : frame) (s : state) :
  clean float_of_str raw = Some s →
  nrows raw = (nrows (df s) + sum_list_with rows_removed (steps s))%nat ∧
  length (columns raw)
  = (length (columns (df s)) + sum_list_with columns_removed (steps s))%nat.
Proof.
  intros Hc.
  rewrite (clean_steps _ _ _ Hc), steps_after_dupes, (clean_nrows _ _ Hc),
    (clean_columns _ _ _ Hc), reduce_eq, clean_key_columns_columns.
  rewrite !sum_list_with_app, sum_columns_removed_key_entries.
  pose proof (sum_rows_removed_key_entries key_cols (after_dupes raw)) as Hkeys.
  pose proof (nrows_after_empty raw) as Hn1.
  pose proof (nrows_after_high raw) as Hn2.
  pose proof (nrows_after_dupes raw) as Hn3.
  pose proof (columns_after_empty raw) as Hc1.
  pose proof (columns_after_high raw) as Hc2.
  rewrite (columns_after_dupes raw).
  generalize dependent (sum_list_with rows_removed
                          (key_entries (after_dupes raw) key_cols)).
  generalize dependent
    (nrows (df (foldl clean_key_column (after_dupes raw) key_cols))).
  generalize dependent (length (high_missing (df (after_empty raw)))).
  generalize dependent (nrows (df (after_dupes raw))).
  generalize dependent (nrows (df (after_high raw))).
  generalize dependent (length (columns (df (after_high raw)))).
  generalize dependent (nrows (df (after_empty raw))).
  generalize dependent (length (columns (df (after_empty raw)))).
  generalize dependent (nrows raw).
  generalize dependent (length (columns raw)).
  generalize dependent (has_col (df s) "int_rate").
  generalize dependent (has_col (df s) "revol_util").
  clear. intros b2 b1 a n0 b n1 c2 n2 n3 h nf K. intros.
  repeat case_bool_decide; destruct b1, b2; simpl; lia.
Qed.

End Report.

(** *** The rows that the key filter keeps *)

Lemma clean_key_columns_filter l s :
  rows (df (foldl clean_key_column s l)) =
  filter (keys_filled (df s) l) (rows (df s)).
Proof.
  revert s. induction l as [| c l IH]; intros s; simpl.
  - symmetry. apply filter_all, Forall_true. intros r. constructor.
  - rewrite IH. unfold keys_filled. rewrite clean_key_column_columns.
    destruct (has_col (df s) c) eqn:Hc.
    + rewrite (clean_key_column_df s c Hc). simpl.
      rewrite list_filter_filter. apply list_filter_iff. intros r.
      rewrite Forall_cons. apply has_col_iff in Hc. tauto.
    + unfold clean_key_column. rewrite Hc.
      apply list_filter_iff. intros r. rewrite Forall_cons.
      assert (c ∉ columns (df s)) by (rewrite <- has_col_iff; congruence). tauto.
Qed.

(** X5. After step 4 the frame holds exactly the rows left by step 3 that have
    a value in every key column still present: the five filters of the
    loop act as one, whatever their order. *)
Theorem key_filter_as_one (raw : frame) :
  rows (df (reduce raw)) =
  filter (keys_filled (df (after_dupes raw)) key_cols) (rows (df (after_dupes raw))).
Proof. rewrite reduce_eq. apply clean_key_columns_filter. Qed.

(** *** Equal rows *)

Lemma dedup_first_NoDup' seen l :
  NoDup (dedup_first seen l) ∧ ∀ r, r ∈ dedup_first seen l → r ∉ seen.
Proof.
  revert seen. induction l as [| r l IH]; intros seen; simpl.
  - split; [constructor | by intros r ?%elem_of_nil].
  - destruct (decide (r ∈ seen)) as [Hin | Hnot]; [apply IH |].
    destruct (IH (r :: seen)) as [Hnd Hseen]. split.
    + constructor; [| done]. intros Hr. apply (Hseen r Hr). by left.
    + intros x Hx. apply elem_of_cons in Hx as [-> | Hx]; [done |].
      intros Hxs. apply (Hseen x Hx). by right.
Qed.

Lemma drop_duplicates_NoDup d : columns d ≠ [] → NoDup (rows (drop_duplicates d)).
Proof.
  intros Hcols. unfold drop_duplicates.
  rewrite (bool_decide_eq_false_2 _ Hcols). cbn [orb].
  case_bool_decide as Hrows.
  - rewrite Hrows. constructor.
  - apply dedup_first_NoDup'.
Qed.

(** X6. Steps 3 and 4 leave no two equal rows in a frame that has a column. *)
Theorem reduce_rows_distinct (raw : frame) :
  columns (df (reduce raw)) ≠ [] → NoDup (rows (df (reduce raw))).
Proof.
  rewrite reduce_eq, clean_key_columns_columns, clean_key_columns_filter.
  intros Hcols. rewrite (columns_after_dupes raw) in Hcols. apply NoDup_filter.
  apply (drop_duplicates_NoDup (df (after_high raw)) Hcols).
Qed.

(** *** A raw frame without rows *)

Section Empty.

Variable float_of_str : string → option cell.

(** X7. A raw frame that has columns but no rows comes out with no column at
    all: with no row, no column has a value, and step 1 removes every one
    of them. *)
Theorem clean_without_rows (raw : frame) :
  rows raw = [] →
  clean float_of_str raw =
  Some {| df := {| columns := []; rows := [] |};
          steps := if bool_decide (0 < length (columns raw))%nat
                   then [RemovedEmpty (length (columns raw))] else [] |}.
Proof.
  intros Hrows.
  set (st := if bool_decide (0 < length (columns raw))%nat
             then [RemovedEmpty (length (columns raw))] else []).
  assert (after_empty raw = State (Frame [] []) st) as E1.
  { unfold after_empty, remove_empty_columns, dropna_columns_all, select_columns.
    cbn [df steps columns rows]. rewrite Hrows. cbn [existsb fmap list_fmap].
    rewrite filter_none by (apply Forall_true; done).
    cbn [length]. by rewrite Nat.sub_0_r. }
  assert (after_high raw = State (Frame [] []) st) as E2.
  { unfold after_high. rewrite E1. unfold remove_high_missing. cbn [df steps].
    by vm_compute. }
  assert (after_dupes raw = State (Frame [] []) st) as E3.
  { unfold after_dupes. rewrite E2. by vm_compute. }
  unfold clean. rewrite reduce_eq, E3. by vm_compute.
Qed.

End Empty.

(** *** Trailing percent signs *)

Lemma rstrip_repeat ch n : rstrip ch (repeat_char ch n) = "".
Proof.
  induction n as [| n IH]; simpl; [done |]. rewrite IH. by rewrite decide_True.
Qed.

Lemma rstrip_app_repeat ch t n :
  rstrip ch (t +:+ repeat_char ch n) = rstrip ch t.
Proof.
  induction t as [| a t IH]; simpl.
  - apply rstrip_repeat.
  - by rewrite IH.
Qed.

Section Percent.

Variable float_of_str : string → option cell.

(** X8. The conversion ignores percent signs at the end of a text, however
    many there are: [t], [t%] and [t%%] are read alike. *)
Theorem percent_signs_ignored (t : string) (n : nat) :
  pct_to_float float_of_str (Str (t +:+ repeat_char "%" n))
  = pct_to_float float_of_str (Str t).
Proof. simpl. by rewrite rstrip_app_repeat. Qed.

End Percent.

(** *** The columns after steps 1 and 2 *)

Lemma col_select keep (r : row) c :
  keep c = true → col (filter (λ kv : string * cell, keep kv.1 = true) r) c = col r c.
Proof.
  intros Hk. unfold col. rewrite map_lookup_filter.
  destruct (r !! c) as [v |]; simpl; [| done]. by rewrite option_guard_True.
Qed.

Lemma null_count_select keep d c :
  keep c = true → null_count (select_columns keep d) c = null_count d c.
Proof.
  intros Hk. unfold null_count, select_columns. cbn [rows].
  induction (rows d) as [| r l IH]; [done |].
  rewrite fmap_cons, !filter_cons, (col_select keep r c Hk).
  destruct (decide (isnull (col r c) = true)); simpl; by rewrite IH.
Qed.

Lemma nrows_select keep d : nrows (select_columns keep d) = nrows d.
Proof. unfold nrows, select_columns. cbn [rows]. apply length_fmap. Qed.

Lemma missing_pct_le_inv d c :
  Qle_bool (missing_pct d c) (8 # 10) = true →
  (5 * null_count d c ≤ 4 * nrows d)%nat.
Proof.
  intros Hle. apply Qle_bool_iff in Hle. unfold missing_pct in Hle.
  assert (null_count d c ≤ nrows d)%nat as Hn.
  { unfold null_count, nrows. apply length_filter. }
  destruct (nrows d) as [| n] eqn:En; [lia |].
  assert (0 < inject_Z (Z.of_nat (S n)))%Q as Hpos.
  { unfold Qlt, inject_Z. simpl. lia. }
  assert (inject_Z (Z.of_nat (null_count d c))
          <= (8 # 10) * inject_Z (Z.of_nat (S n)))%Q as Hmul.
  { rewrite <- (Qmult_div_r (inject_Z (Z.of_nat (null_count d c)))
                            (inject_Z (Z.of_nat (S n)))) at 1
      by (intros E; rewrite E in Hpos; by apply Qlt_irrefl in Hpos).
    rewrite (Qmult_comm (inject_Z (Z.of_nat (S n)))).
    apply Qmult_le_compat_r; [exact Hle | by apply Qlt_le_weak]. }
  unfold Qle, Qmult, inject_Z in Hmul. simpl Qnum in Hmul. simpl Qden in Hmul. lia.
Qed.

(** X9. Right after steps 1 and 2 every column that is left has a value in
    some row and is at most 80% null. (The row filters that follow can
    undo both.) *)
Theorem columns_after_high_missing (raw : frame) (c : string) :
  c ∈ columns (df (after_high raw)) →
  (∃ r, r ∈ rows (df (after_high raw)) ∧ isnull (col r c) = false) ∧
  (5 * null_count (df (after_high raw)) c ≤ 4 * nrows (df (after_high raw)))%nat.
Proof.
  unfold after_high, remove_high_missing. cbn [df].
  unfold after_empty, remove_empty_columns. cbn [df].
  unfold drop_columns, dropna_columns_all.
  set (keep1 := λ c, existsb (λ r, negb (isnull (col r c))) (rows raw)).
  set (d1 := select_columns keep1 raw).
  set (keep2 := λ c, negb (bool_decide (c ∈ high_missing d1))).
  intros Hc.
  apply list_elem_of_filter in Hc as [Hk2 Hc1].
  pose proof Hc1 as Hc1'. apply list_elem_of_filter in Hc1' as [Hk1 _].
  split.
  - pose proof Hk1 as Hex. unfold keep1 in Hex.
    apply existsb_exists in Hex as (r & Hr & Hv). apply list_elem_of_In in Hr.
    exists (filter (λ kv : string * cell, keep2 kv.1 = true)
              (filter (λ kv : string * cell, keep1 kv.1 = true) r)).
    split.
    + simpl. apply list_elem_of_fmap. eexists. split; [done |].
      apply list_elem_of_fmap. exists r. split; [done | exact Hr].
    + rewrite (col_select keep2 _ c Hk2), (col_select keep1 _ c Hk1).
      by apply negb_true_iff.
  - rewrite (null_count_select keep2 d1 c Hk2), nrows_select.
    apply missing_pct_le_inv.
    unfold keep2 in Hk2. apply negb_true_iff, bool_decide_eq_false in Hk2.
    unfold high_missing in Hk2. rewrite list_elem_of_filter in Hk2.
    destruct (Qle_bool (missing_pct d1 c) (8 # 10)); [done |].
    exfalso. apply Hk2. done.
Qed.

(** *** Instances on the sample frames *)


Lemma percentage_columns_numeric_witness :
  clean float_of_string sample_raw = Some sample_clean_state ∧
  "int_rate" ∈ ["int_rate"; "revol_util"] ∧
  "int_rate" ∈ columns (df sample_clean_state) ∧
  sample_clean_row ∈ rows (df sample_clean_state) ∧
  (col sample_clean_row "int_rate" = NaN ∨
   (∃ q, col sample_clean_row "int_rate" = Num q) ∨
   (∃ b, col sample_clean_row "int_rate" = Inf b)).
Proof.
  assert (clean float_of_string sample_raw = Some sample_clean_state) as H1
    by (vm_compute; reflexivity).
  assert ("int_rate" ∈ ["int_rate"; "revol_util"]) as H2 by by_compute.
  assert ("int_rate" ∈ columns (df sample_clean_state)) as H3 by by_compute.
  assert (sample_clean_row ∈ rows (df sample_clean_state)) as H4 by by_compute.
  exact (conj H1 (conj H2 (conj H3 (conj H4
           (percentage_columns_numeric float_of_string float_of_string_float
              sample_raw sample_clean_state "int_rate" sample_clean_row
              H1 H2 H3 H4))))).
Defined.

Lemma report_accounts_for_reduction_witness :
  clean float_of_string sample_raw = Some sample_clean_state ∧
  nrows sample_raw
  = (nrows (df sample_clean_state)
     + sum_list_with rows_removed (steps sample_clean_state))%nat ∧
  length (columns sample_raw)
  = (length (columns (df sample_clean_state))
     + sum_list_with columns_removed (steps sample_clean_state))%nat.
Proof.
  assert (clean float_of_string sample_raw = Some sample_clean_state) as H1
    by (vm_compute; reflexivity).
  exact (conj H1 (report_accounts_for_reduction float_of_string sample_raw
                    sample_clean_state H1)).
Defined.

Lemma reduce_rows_distinct_witness :
  columns (df (reduce sample_raw)) ≠ [] ∧ NoDup (rows (df (reduce sample_raw))).
Proof.
  assert (columns (df (reduce sample_raw)) ≠ []) as H1 by by_compute.
  exact (conj H1 (reduce_rows_distinct sample_raw H1)).
Defined.

Lemma clean_without_rows_witness :
  rows header_only = [] ∧
  clean float_of_string header_only =
  Some {| df := {| columns := []; rows := [] |}; steps := [RemovedEmpty 5] |}.
Proof.
  assert (rows header_only = []) as H1 by reflexivity.
  exact (conj H1 (clean_without_rows float_of_string header_only H1)).
Defined.

Lemma columns_after_high_missing_witness :
  "desc" ∈ columns (df (after_high sample_raw)) ∧
  (∃ r, r ∈ rows (df (after_high sample_raw)) ∧ isnull (col r "desc") = false) ∧
  (5 * null_count (df (after_high sample_raw)) "desc"
   ≤ 4 * nrows (df (after_high sample_raw)))%nat.
Proof.
  assert ("desc" ∈ columns (df (after_high sample_raw))) as H1 by by_compute.
  exact (conj H1 (columns_after_high_missing sample_raw "desc" H1)).
Defined.

End CleaningMore.


(** * Further properties of the transformation stage *)

Module TransformationMore.
Import Transformation TransformationSpec.

Ltac notin :=
  match goal with
  | |- ?k ∉ ?K => apply (bool_decide_unpack (k ∉ K)); vm_compute; exact I
  end.

(** A step that writes column [c] leaves the presence of every other
    column as it was. *)
Lemma writes_has_col_eq c s s' k :
  writes c s s' → k ≠ c → has_col (df s') k = has_col (df s) k.
Proof.
  intros (Hp & Hc & _) Hne. unfold has_col.
  apply bool_decide_ext. split.
  - intros Hk. by destruct (Hc k Hk).
  - intros Hk. destruct Hp as [t ->]. apply elem_of_app. by left.
Qed.

Lemma adds_skip c s : adds false c s s.
Proof.
  split; [by rewrite app_nil_r |]. split; [lia |].
  intros k. split; [by left | by intros [? | [? _]]].
Qed.

Lemma adds_record c t d s :
  (∀ k, k ∈ columns d ↔ k ∈ columns (df s) ∨ k = c) →
  adds true c s (record t c d s).
Proof.
  intros Hd. split; [done |]. split; [simpl; rewrite length_app; simpl; lia |].
  intros k. simpl. rewrite Hd. tauto.
Qed.

Lemma target_variable_adds s s' :
  target_variable s = Some s' →
  adds (has_col (df s) "loan_status") "is_good_loan" s s'.
Proof.
  unfold target_variable. destruct (has_col (df s) "loan_status"); intros [= <-].
  - apply adds_record. intros k. simpl. apply set_columns_elem.
  - apply adds_skip.
Qed.

Lemma risk_categories_adds s s' :
  risk_categories s = Some s' →
  adds (has_col (df s) "grade") "risk_category" s s'.
Proof.
  unfold risk_categories. destruct (has_col (df s) "grade"); intros [= <-].
  - apply adds_record. intros k. simpl. apply set_columns_elem.
  - apply adds_skip.
Qed.

Lemma income_ratio_adds s s' :
  income_ratio s = Some s' →
  adds (has_col (df s) "annual_inc" && has_col (df s) "loan_amnt")
       "income_loan_ratio" s s'.
Proof.
  unfold income_ratio. destruct (_ && _).
  - destruct (set_colM _ _ _) as [d |] eqn:Hd; intros [= <-].
    apply adds_record. intros k. apply set_colM_inv in Hd as [-> _].
    apply set_columns_elem.
  - intros [= <-]. apply adds_skip.
Qed.

Lemma employment_years_adds s s' :
  employment_years s = Some s' →
  adds (has_col (df s) "emp_length") "emp_years" s s'.
Proof.
  unfold employment_years. destruct (has_col (df s) "emp_length").
  - destruct (str_accessor _ _); intros [= <-].
    apply adds_record. intros k. simpl. rewrite set_columns_elem. simpl.
    rewrite set_columns_elem. tauto.
  - intros [= <-]. apply adds_skip.
Qed.

Lemma loan_size_categories_adds s s' :
  loan_size_categories s = Some s' →
  adds (has_col (df s) "loan_amnt") "loan_size_category" s s'.
Proof.
  unfold loan_size_categories. destruct (has_col (df s) "loan_amnt").
  - destruct (set_colM _ _ _) as [d |] eqn:Hd; intros [= <-].
    apply adds_record. intros k. apply set_colM_inv in Hd as [-> _].
    apply set_columns_elem.
  - intros [= <-]. apply adds_skip.
Qed.

(** The gates of a run read the input: no step adds a source column. *)
Lemma transform_gates cleaned s1 s2 s3 s4 :
  target_variable (State cleaned [] []) = Some s1 →
  risk_categories s1 = Some s2 →
  income_ratio s2 = Some s3 →
  employment_years s3 = Some s4 →
  has_col (df s1) "grade" = has_col cleaned "grade" ∧
  has_col (df s2) "annual_inc" = has_col cleaned "annual_inc" ∧
  has_col (df s2) "loan_amnt" = has_col cleaned "loan_amnt" ∧
  has_col (df s3) "emp_length" = has_col cleaned "emp_length" ∧
  has_col (df s4) "loan_amnt" = has_col cleaned "loan_amnt".
Proof.
  intros H1 H2 H3 H4.
  pose proof (target_variable_writes _ _ H1) as W1.
  pose proof (risk_categories_writes _ _ H2) as W2.
  pose proof (income_ratio_writes _ _ H3) as W3.
  pose proof (employment_years_writes _ _ H4) as W4.
  repeat split.
  - by rewrite (writes_has_col_eq _ _ _ _ W1).
  - by rewrite (writes_has_col_eq _ _ _ _ W2), (writes_has_col_eq _ _ _ _ W1).
  - by rewrite (writes_has_col_eq _ _ _ _ W2), (writes_has_col_eq _ _ _ _ W1).
  - by rewrite (writes_has_col_eq _ _ _ _ W3), (writes_has_col_eq _ _ _ _ W2),
      (writes_has_col_eq _ _ _ _ W1).
  - by rewrite (writes_has_col_eq _ _ _ _ W4), (writes_has_col_eq _ _ _ _ W3),
      (writes_has_col_eq _ _ _ _ W2), (writes_has_col_eq _ _ _ _ W1).
Qed.

Lemma elem_of_if_one (b : bool) (c k : string) :
  k ∈ (if b then [c] else []) ↔ b = true ∧ k = c.
Proof.
  destruct b.
  - rewrite list_elem_of_singleton. intuition.
  - rewrite elem_of_nil. intuition discriminate.
Qed.

(** X10. The list of new features of a run names the derived columns whose
    source columns the input has, in the order of the steps; every one of
    them is a column of the output, every column of the output is an input
    column or one of them, and the report has one transformation line per
    new feature. *)
Theorem new_features_listed (cleaned : frame) (out : state) :
  transform cleaned = Some out →
  new_features out = features_for cleaned ∧
  (∀ c, c ∈ new_features out → c ∈ columns (df out)) ∧
  (∀ c, c ∈ columns (df out) → c ∈ columns cleaned ∨ c ∈ new_features out) ∧
  length (transformations out) = length (new_features out).
Proof.
  intros Ht.
  apply transform_inv in Ht as (s1 & s2 & s3 & s4 & H1 & H2 & H3 & H4 & H5).
  destruct (transform_gates _ _ _ _ _ H1 H2 H3 H4) as (G1 & G2a & G2b & G3 & G4).
  destruct (target_variable_adds _ _ H1) as (F1 & L1 & C1).
  destruct (risk_categories_adds _ _ H2) as (F2 & L2 & C2).
  destruct (income_ratio_adds _ _ H3) as (F3 & L3 & C3).
  destruct (employment_years_adds _ _ H4) as (F4 & L4 & C4).
  destruct (loan_size_categories_adds _ _ H5) as (F5 & L5 & C5).
  rewrite G1 in *. rewrite G2a, G2b in *. rewrite G3 in *. rewrite G4 in *.
  simpl in F1, L1, C1.
  assert (new_features out = features_for cleaned) as HF.
  { rewrite F5, F4, F3, F2, F1. unfold features_for. by rewrite <- !app_assoc. }
  split; [exact HF |].
  assert (∀ c, c ∈ new_features out ↔
               (has_col cleaned "loan_status" = true ∧ c = "is_good_loan") ∨
               (has_col cleaned "grade" = true ∧ c = "risk_category") ∨
               (has_col cleaned "annual_inc" && has_col cleaned "loan_amnt" = true
                ∧ c = "income_loan_ratio") ∨
               (has_col cleaned "emp_length" = true ∧ c = "emp_years") ∨
               (has_col cleaned "loan_amnt" = true ∧ c = "loan_size_category"))
    as Hin.
  { intros c. rewrite HF. unfold features_for.
    rewrite !elem_of_app, !elem_of_if_one. tauto. }
  split; [| split].
  - intros c Hc. apply Hin in Hc. rewrite C5, C4, C3, C2, C1. tauto.
  - intros c Hc. rewrite Hin. rewrite C5, C4, C3, C2, C1 in Hc. tauto.
  - rewrite L5, L4, L3, L2, L1, F5, F4, F3, F2, F1. simpl.
    rewrite !length_app.
    destruct (has_col cleaned "loan_status"), (has_col cleaned "grade"),
      (has_col cleaned "annual_inc" && has_col cleaned "loan_amnt"),
      (has_col cleaned "emp_length"), (has_col cleaned "loan_amnt"); simpl; lia.
Qed.

(** *** The income to loan ratio *)




(** *** Employment years *)


(** *** When the stage gives up *)

Lemma truediv_None a b :
  truediv a b = None ↔ is_text a = true ∨ is_text b = true.
Proof.
  destruct a as [| ta | qa | ba], b as [| tb | qb | bb]; simpl;
    try (split; [done | by intros [? | ?]]); try (split; [auto | done]).
  destruct (Qeq_bool qb 0); [destruct (Qeq_bool qa 0) |];
    (split; [done | by intros [? | ?]]).
Qed.

Lemma cut_None x : cut bins labels x = None ↔ is_text x = true.
Proof.
  destruct x as [| t | q | b].
  - done.
  - done.
  - by rewrite TransformationSpec.cut_bins_num.
  - unfold cut. by destruct (_ || _).
Qed.

Lemma set_colM_fails c (f : row → option cell) d :
  set_colM c f d = None ↔ ∃ r, r ∈ rows d ∧ f r = None.
Proof.
  unfold set_colM. split.
  - destruct (mapM _ (rows d)) as [rs |] eqn:Hm; [done |]. intros _.
    apply mapM_None_1, Exists_exists in Hm as (r & Hr & Hf).
    exists r. split; [done |]. by destruct (f r).
  - intros (r & Hr & Hf).
    assert (mapM (λ r, v ← f r; Some (<[c := v]> r)) (rows d) = None) as ->; [| done].
    apply mapM_None_2, Exists_exists. exists r. split; [done |]. by rewrite Hf.
Qed.

Lemma income_ratio_None s :
  income_ratio s = None ↔
  has_col (df s) "annual_inc" && has_col (df s) "loan_amnt" = true ∧
  ∃ r, r ∈ rows (df s) ∧
       (is_text (col r "annual_inc") = true ∨ is_text (col r "loan_amnt") = true).
Proof.
  unfold income_ratio. destruct (_ && _).
  - destruct (set_colM _ _ (df s)) as [d |] eqn:Hd.
    + split; [done |]. intros (_ & r & Hr & Ht). exfalso.
      assert (set_colM "income_loan_ratio"
                (λ r, truediv (col r "annual_inc") (col r "loan_amnt")) (df s) = None)
        as E; [| congruence].
      apply set_colM_fails. exists r. split; [done |]. by apply truediv_None.
    + split; [intros _ | done]. split; [done |].
      apply set_colM_fails in Hd as (r & Hr & Hf). exists r. split; [done |].
      by apply truediv_None.
  - split; [done | by intros [? _]].
Qed.

Lemma loan_size_categories_None s :
  loan_size_categories s = None ↔
  has_col (df s) "loan_amnt" = true ∧
  ∃ r, r ∈ rows (df s) ∧ is_text (col r "loan_amnt") = true.
Proof.
  unfold loan_size_categories. destruct (has_col (df s) "loan_amnt").
  - destruct (set_colM _ _ (df s)) as [d |] eqn:Hd.
    + split; [done |]. intros (_ & r & Hr & Ht). exfalso.
      assert (set_colM "loan_size_category"
                (λ r, cut bins labels (col r "loan_amnt")) (df s) = None)
        as E; [| congruence].
      apply set_colM_fails. exists r. split; [done |]. by apply cut_None.
    + split; [intros _ | done]. split; [done |].
      apply set_colM_fails in Hd as (r & Hr & Hf). exists r. split; [done |].
      by apply cut_None.
  - split; [done | by intros [? _]].
Qed.

Lemma str_accessor_None d c :
  str_accessor d c = None ↔
  rows d ≠ [] ∧ ∀ r, r ∈ rows d → is_text (col r c) = false.
Proof.
  unfold str_accessor.
  destruct (bool_decide (rows d = [])) eqn:E0; simpl.
  { apply bool_decide_eq_true in E0. split; [done | by intros [? _]]. }
  apply bool_decide_eq_false in E0.
  destruct (existsb _ (rows d)) eqn:E1.
  - apply existsb_exists in E1 as (r & Hr & Ht). apply list_elem_of_In in Hr.
    split; [done |]. intros (_ & Hall). specialize (Hall r Hr).
    unfold is_text in Hall. destruct (col r c); done.
  - split; [intros _ | done]. split; [done |]. intros r Hr.
    destruct (is_text (col r c)) eqn:Et; [| done].
    assert (existsb (λ r, match col r c with Str _ => true | _ => false end) (rows d)
            = true) as E; [| congruence].
    apply existsb_exists. exists r. split; [by apply list_elem_of_In | exact Et].
Qed.

Lemma employment_years_None s :
  employment_years s = None ↔
  has_col (df s) "emp_length" = true ∧ rows (df s) ≠ [] ∧
  ∀ r, r ∈ rows (df s) → is_text (col r "emp_length") = false.
Proof.
  unfold employment_years. destruct (has_col (df s) "emp_length").
  - destruct (str_accessor (df s) "emp_length") eqn:E.
    + split; [done |]. intros (_ & H). apply str_accessor_None in H. congruence.
    + apply str_accessor_None in E. split; [by intros _ | done].
  - split; [done | by intros [? _]].
Qed.

(** Statements about the cells of columns outside [K] move along rows
    that agree outside [K]. *)
Lemma exists_agree (Q : row → Prop) K (l l' : list row) :
  Forall2 (agree_off K) l l' →
  (∀ r r', agree_off K r r' → (Q r ↔ Q r')) →
  (∃ r, r ∈ l' ∧ Q r) ↔ (∃ r, r ∈ l ∧ Q r).
Proof.
  intros H HQ. split.
  - intros (r' & Hr' & Hq).
    destruct (CleaningSpec.Forall2_elem_of_r _ _ _ _ H Hr') as (r & Hr & Ha).
    exists r. split; [done |]. by apply (HQ r r' Ha).
  - intros (r & Hr & Hq).
    destruct (CleaningMore.Forall2_elem_of_l _ _ _ _ H Hr) as (r' & Hr' & Ha).
    exists r'. split; [done |]. by apply (HQ r r' Ha).
Qed.

Lemma forall_agree (Q : row → Prop) K (l l' : list row) :
  Forall2 (agree_off K) l l' →
  (∀ r r', agree_off K r r' → (Q r ↔ Q r')) →
  (∀ r, r ∈ l' → Q r) ↔ (∀ r, r ∈ l → Q r).
Proof.
  intros H HQ. split.
  - intros Hall r Hr.
    destruct (CleaningMore.Forall2_elem_of_l _ _ _ _ H Hr) as (r' & Hr' & Ha).
    apply (HQ r r' Ha). auto.
  - intros Hall r' Hr'.
    destruct (CleaningSpec.Forall2_elem_of_r _ _ _ _ H Hr') as (r & Hr & Ha).
    apply (HQ r r' Ha). auto.
Qed.

Lemma target_variable_total s : is_Some (target_variable s).
Proof. unfold target_variable. by destruct (has_col _ _). Qed.

Lemma risk_categories_total s : is_Some (risk_categories s).
Proof. unfold risk_categories. by destruct (has_col _ _). Qed.

(** When the embedded stage gives up. The embedded division gives up on
    every text operand; pandas retries a failed division on the rows where
    both operands are present, so a text next to a null is passed over
    there: on that one point the embedding gives up more readily than the
    script, which the two theorems after this lemma stay clear of. *)
Lemma transform_None_iff (cleaned : frame) :
  transform cleaned = None ↔
  (has_col cleaned "annual_inc" = true ∧ has_col cleaned "loan_amnt" = true ∧
   ∃ r, r ∈ rows cleaned ∧
        (is_text (col r "annual_inc") = true ∨ is_text (col r "loan_amnt") = true)) ∨
  (has_col cleaned "emp_length" = true ∧ rows cleaned ≠ [] ∧
   ∀ r, r ∈ rows cleaned → is_text (col r "emp_length") = false) ∨
  (has_col cleaned "loan_amnt" = true ∧
   ∃ r, r ∈ rows cleaned ∧ is_text (col r "loan_amnt") = true).
Proof.
  destruct (target_variable_total (State cleaned [] [])) as [s1 H1].
  destruct (risk_categories_total s1) as [s2 H2].
  pose proof (target_variable_writes _ _ H1) as W1.
  pose proof (risk_categories_writes _ _ H2) as W2.
  pose proof (Forall2_agree_trans _ _ _ _ _ (writes_rows _ _ _ W1) (writes_rows _ _ _ W2))
    as A2. simpl in A2.
  (* the condition of step 3, read on the input *)
  assert (income_ratio s2 = None ↔
          has_col cleaned "annual_inc" = true ∧ has_col cleaned "loan_amnt" = true ∧
          ∃ r, r ∈ rows cleaned ∧
               (is_text (col r "annual_inc") = true
                ∨ is_text (col r "loan_amnt") = true)) as N3.
  { rewrite income_ratio_None, andb_true_iff.
    rewrite !(writes_has_col_eq _ _ _ _ W2), !(writes_has_col_eq _ _ _ _ W1) by done.
    rewrite (exists_agree
               (λ r, is_text (col r "annual_inc") = true
                     ∨ is_text (col r "loan_amnt") = true) _ _ _ A2); [simpl; tauto |].
    intros r r' Ha. by rewrite !(agree_off_col _ _ _ _ Ha) by notin. }
  unfold transform. rewrite H1. cbn [mbind option_bind]. rewrite H2.
  cbn [mbind option_bind].
  destruct (income_ratio s2) as [s3 |] eqn:H3; cbn [mbind option_bind].
  2:{ split; [intros _ | done]. left. by apply N3. }
  pose proof (income_ratio_writes _ _ H3) as W3.
  pose proof (Forall2_agree_trans _ _ _ _ _ A2 (writes_rows _ _ _ W3)) as A3.
  simpl in A3.
  assert (employment_years s3 = None ↔
          has_col cleaned "emp_length" = true ∧ rows cleaned ≠ [] ∧
          ∀ r, r ∈ rows cleaned → is_text (col r "emp_length") = false) as N4.
  { rewrite employment_years_None.
    rewrite (writes_has_col_eq _ _ _ _ W3), (writes_has_col_eq _ _ _ _ W2),
      (writes_has_col_eq _ _ _ _ W1) by done.
    rewrite (forall_agree (λ r, is_text (col r "emp_length") = false) _ _ _ A3).
    - assert (rows (df s3) ≠ [] ↔ rows cleaned ≠ []) as ->; [| done].
      apply Forall2_length in A3. simpl in A3.
      destruct (rows (df s3)), (rows cleaned); simpl in A3; try done.
    - intros r r' Ha. by rewrite !(agree_off_col _ _ _ _ Ha) by notin. }
  destruct (employment_years s3) as [s4 |] eqn:H4; cbn [mbind option_bind].
  2:{ split; [intros _ | done]. right; left. by apply N4. }
  pose proof (employment_years_writes _ _ H4) as W4.
  pose proof (Forall2_agree_trans _ _ _ _ _ A3 (writes_rows _ _ _ W4)) as A4.
  simpl in A4.
  assert (loan_size_categories s4 = None ↔
          has_col cleaned "loan_amnt" = true ∧
          ∃ r, r ∈ rows cleaned ∧ is_text (col r "loan_amnt") = true) as N5.
  { rewrite loan_size_categories_None.
    rewrite (writes_has_col_eq _ _ _ _ W4), (writes_has_col_eq _ _ _ _ W3),
      (writes_has_col_eq _ _ _ _ W2), (writes_has_col_eq _ _ _ _ W1) by done.
    rewrite (exists_agree (λ r, is_text (col r "loan_amnt") = true) _ _ _ A4);
      [done |].
    intros r r' Ha. by rewrite !(agree_off_col _ _ _ _ Ha) by notin. }
  rewrite N5. split; [tauto |].
  intros [HA | [HB | HC]]; [| | done].
  - apply N3 in HA. congruence.
  - apply N4 in HB. congruence.
Qed.

(** X13. The stage gives up, and writes nothing, when [loan_amnt] holds a text
    (it cannot be binned), and when the frame has rows but its
    [emp_length] column holds no text at all (a numeric or an all-null
    column has no [.str] accessor). *)
Theorem transform_gives_up (cleaned : frame) :
  (has_col cleaned "loan_amnt" = true ∧
   ∃ r, r ∈ rows cleaned ∧ is_text (col r "loan_amnt") = true) ∨
  (has_col cleaned "emp_length" = true ∧ rows cleaned ≠ [] ∧
   ∀ r, r ∈ rows cleaned → is_text (col r "emp_length") = false) →
  transform cleaned = None.
Proof.
  intros H. apply transform_None_iff. tauto.
Qed.

(** X14. The stage produces an output when [loan_amnt] holds no text,
    [annual_inc] holds no text if both it and [loan_amnt] are there, and
    [emp_length], if there, holds a text in some row or the frame has no
    row. *)
Theorem transform_succeeds (cleaned : frame) :
  (has_col cleaned "loan_amnt" = true →
   ∀ r, r ∈ rows cleaned → is_text (col r "loan_amnt") = false) →
  (has_col cleaned "annual_inc" = true → has_col cleaned "loan_amnt" = true →
   ∀ r, r ∈ rows cleaned → is_text (col r "annual_inc") = false) →
  (has_col cleaned "emp_length" = true →
   rows cleaned = [] ∨ ∃ r, r ∈ rows cleaned ∧ is_text (col r "emp_length") = true) →
  is_Some (transform cleaned).
Proof.
  intros Hamnt Hinc Hemp.
  destruct (transform cleaned) as [out |] eqn:E; [by eexists |]. exfalso.
  apply transform_None_iff in E as [(Ha & Hl & r & Hr & [Ht | Ht]) | [HB | HC]].
  - rewrite (Hinc Ha Hl r Hr) in Ht. done.
  - rewrite (Hamnt Hl r Hr) in Ht. done.
  - destruct HB as (He & Hne & Hall).
    destruct (Hemp He) as [Hnil | (r & Hr & Ht)]; [done |].
    rewrite (Hall r Hr) in Ht. done.
  - destruct HC as (Hl & r & Hr & Ht). rewrite (Hamnt Hl r Hr) in Ht. done.
Qed.

(** *** Instances on the sample frame *)

Lemma new_features_listed_witness :
  transform sample_cleaned = Some sample_processed ∧
  new_features sample_processed = derived.
Proof.
  assert (transform sample_cleaned = Some sample_processed) as H1
    by (vm_compute; reflexivity).
  split; [exact H1 |].
  exact (proj1 (new_features_listed sample_cleaned sample_processed H1)).
Defined.



Lemma transform_gives_up_witness :
  ((has_col text_amount "loan_amnt" = true ∧
    ∃ r, r ∈ rows text_amount ∧ is_text (col r "loan_amnt") = true) ∨
   (has_col text_amount "emp_length" = true ∧ rows text_amount ≠ [] ∧
    ∀ r, r ∈ rows text_amount → is_text (col r "emp_length") = false)) ∧
  transform text_amount = None.
Proof.
  assert ((has_col text_amount "loan_amnt" = true ∧
           ∃ r, r ∈ rows text_amount ∧ is_text (col r "loan_amnt") = true) ∨
          (has_col text_amount "emp_length" = true ∧ rows text_amount ≠ [] ∧
           ∀ r, r ∈ rows text_amount → is_text (col r "emp_length") = false)) as H.
  { left. split; [reflexivity |].
    exists (mk_row [("loan_amnt", Str "5k"); ("grade", Str "A")]).
    split; [by_compute | reflexivity]. }
  exact (conj H (transform_gives_up text_amount H)).
Defined.

Lemma transform_succeeds_witness :
  (has_col sample_cleaned "loan_amnt" = true →
   ∀ r, r ∈ rows sample_cleaned → is_text (col r "loan_amnt") = false) ∧
  (has_col sample_cleaned "annual_inc" = true →
   has_col sample_cleaned "loan_amnt" = true →
   ∀ r, r ∈ rows sample_cleaned → is_text (col r "annual_inc") = false) ∧
  (has_col sample_cleaned "emp_length" = true →
   rows sample_cleaned = [] ∨
   ∃ r, r ∈ rows sample_cleaned ∧ is_text (col r "emp_length") = true) ∧
  is_Some (transform sample_cleaned).
Proof.
  assert (∀ r, r ∈ rows sample_cleaned → is_text (col r "loan_amnt") = false) as H1.
  { apply (proj1 (Forall_forall _ _)). by_compute. }
  assert (∀ r, r ∈ rows sample_cleaned → is_text (col r "annual_inc") = false) as H2.
  { apply (proj1 (Forall_forall _ _)). by_compute. }
  assert (rows sample_cleaned = [] ∨
          ∃ r, r ∈ rows sample_cleaned ∧ is_text (col r "emp_length") = true) as H3.
  { right. apply Exists_exists. by_compute. }
  exact (conj (λ _, H1) (conj (λ _ _, H2) (conj (λ _, H3)
           (transform_succeeds sample_cleaned (λ _, H1) (λ _ _, H2) (λ _, H3))))).
Defined.

End TransformationMore.


Module TransformationAgain.
Import Transformation TransformationSpec TransformationMore.

Ltac notin :=
  match goal with
  | |- ?k ∉ ?K => apply (bool_decide_unpack (k ∉ K)); vm_compute; exact I
  end.

Lemma holds_agree K c f r r' :
  reads_off K f → c ∉ K → agree_off K r r' → holds c f r → holds c f r'.
Proof.
  intros Hf Hc Ha (v & Hv & Hl). exists v. by rewrite (Hf r r' Ha), (Ha c Hc).
Qed.

Lemma holds_insert c f r v :
  reads_off [c] f → f r = Some v → holds c f (<[c := v]> r).
Proof.
  intros Hf Hv. exists v. rewrite (Hf r _ (agree_off_insert c v r)).
  by rewrite lookup_insert_eq.
Qed.

Lemma set_colM_holds c f d d' :
  reads_off [c] f → set_colM c f d = Some d' →
  c ∈ columns d' ∧ Forall (holds c f) (rows d').
Proof.
  intros Hf H. apply set_colM_inv in H as [Hcols Hrows]. split.
  - rewrite Hcols. apply set_columns_elem. by right.
  - eapply Forall2_Forall_r; [exact Hrows |].
    apply Forall_forall. intros r _ r' (v & Hv & ->). by apply holds_insert.
Qed.

Lemma set_colM_id c f d :
  c ∈ columns d → Forall (holds c f) (rows d) → set_colM c f d = Some d.
Proof.
  intros Hc Hrows. unfold set_colM.
  assert (mapM (λ r, v ← f r; Some (<[c := v]> r)) (rows d) = Some (rows d)) as ->.
  { apply mapM_Some_2, Forall_Forall2_diag.
    eapply Forall_impl; [exact Hrows |]. intros r (v & Hv & Hl).
    rewrite Hv. cbn [mbind option_bind]. f_equal. by apply insert_id. }
  cbn [mbind option_bind]. unfold set_columns.
  rewrite (has_col_true d c Hc). by destruct d.
Qed.

Lemma set_col_as_M c (f : row → cell) d :
  set_colM c (λ r, Some (f r)) d = Some (set_col c f d).
Proof.
  unfold set_colM, set_col.
  assert (mapM (λ r, v ← Some (f r); Some (<[c := v]> r)) (rows d)
          = Some ((λ r, <[c := f r]> r) <$> rows d)) as ->; [| done].
  apply mapM_Some_2. apply Forall2_fmap_r, Forall_Forall2_diag, Forall_true.
  by intros r.
Qed.

Lemma set_col_id c (f : row → cell) d :
  c ∈ columns d → Forall (holds c (λ r, Some (f r))) (rows d) → set_col c f d = d.
Proof.
  intros Hc Hrows.
  pose proof (set_colM_id c (λ r, Some (f r)) d Hc Hrows) as E.
  rewrite set_col_as_M in E. by injection E.
Qed.

(** The five value functions read source columns only. *)
Lemma reads_good_loan K :
  "loan_status" ∉ K → reads_off K (λ r, Some (good_loan_of r)).
Proof. intros Hk r r' Ha. unfold good_loan_of. by rewrite (agree_off_col _ _ _ _ Ha). Qed.

Lemma reads_risk K : "grade" ∉ K → reads_off K (λ r, Some (risk_of r)).
Proof. intros Hk r r' Ha. unfold risk_of. by rewrite (agree_off_col _ _ _ _ Ha). Qed.

Lemma reads_ratio K : "annual_inc" ∉ K → "loan_amnt" ∉ K → reads_off K ratio_of.
Proof.
  intros H1 H2 r r' Ha. unfold ratio_of. by rewrite !(agree_off_col _ _ _ _ Ha).
Qed.

Lemma reads_years K : "emp_length" ∉ K → reads_off K (λ r, Some (years_of r)).
Proof. intros Hk r r' Ha. unfold years_of. by rewrite !(agree_off_col _ _ _ _ Ha). Qed.

Lemma reads_size K : "loan_amnt" ∉ K → reads_off K size_of.
Proof. intros Hk r r' Ha. unfold size_of. by rewrite (agree_off_col _ _ _ _ Ha). Qed.

(** A later step that writes another column keeps a filled column
    filled. *)
Lemma filled_writes gate c f k s s' :
  reads_off [k] f → c ≠ k → writes k s s' →
  filled gate c f (df s) → filled gate c f (df s').
Proof.
  intros Hf Hne (Hp & _ & Ha) Hfill Hg. destruct (Hfill Hg) as [Hc Hrows]. split.
  - destruct Hp as [t ->]. apply elem_of_app. by left.
  - eapply Forall_agree; [| exact Ha | exact Hrows].
    intros r r' Hag. apply holds_agree with (K := [k]); [done | | done].
    rewrite list_elem_of_singleton. done.
Qed.

(** *** What each step leaves behind *)

Lemma target_variable_fills s s' :
  target_variable s = Some s' →
  filled (has_col (df s) "loan_status") "is_good_loan"
         (λ r, Some (good_loan_of r)) (df s').
Proof.
  unfold target_variable. intros H Hg. rewrite Hg in H. injection H as <-.
  pose proof (set_col_as_M "is_good_loan" good_loan_of (df s)) as E.
  apply set_colM_holds in E; [done |]. apply reads_good_loan. notin.
Qed.

Lemma risk_categories_fills s s' :
  risk_categories s = Some s' →
  filled (has_col (df s) "grade") "risk_category" (λ r, Some (risk_of r)) (df s').
Proof.
  unfold risk_categories. intros H Hg. rewrite Hg in H. injection H as <-.
  pose proof (set_col_as_M "risk_category" risk_of (df s)) as E.
  apply set_colM_holds in E; [done |]. apply reads_risk. notin.
Qed.

Lemma income_ratio_fills s s' :
  income_ratio s = Some s' →
  filled (has_col (df s) "annual_inc" && has_col (df s) "loan_amnt")
         "income_loan_ratio" ratio_of (df s').
Proof.
  unfold income_ratio. intros H Hg. rewrite Hg in H.
  destruct (set_colM _ _ (df s)) as [d |] eqn:Hd; [| done]. injection H as <-.
  apply set_colM_holds in Hd; [done |]. apply reads_ratio; notin.
Qed.

Lemma employment_years_fills s s' :
  employment_years s = Some s' →
  filled (has_col (df s) "emp_length") "emp_years" (λ r, Some (years_of r)) (df s').
Proof.
  unfold employment_years. intros H Hg. rewrite Hg in H.
  destruct (str_accessor _ _); [| done]. injection H as <-. cbn [df record]. split.
  - apply set_columns_elem. by right.
  - simpl. rewrite <- list_fmap_compose. apply Forall_fmap, Forall_forall.
    intros r _. simpl. eexists. split; [| apply lookup_insert_eq].
    unfold years_of. f_equal.
    rewrite !(col_insert_ne "emp_years" "emp_length") by congruence.
    by rewrite col_insert_eq.
Qed.

Lemma loan_size_categories_fills s s' :
  loan_size_categories s = Some s' →
  filled (has_col (df s) "loan_amnt") "loan_size_category" size_of (df s').
Proof.
  unfold loan_size_categories. intros H Hg. rewrite Hg in H.
  destruct (set_colM _ _ (df s)) as [d |] eqn:Hd; [| done]. injection H as <-.
  apply set_colM_holds in Hd; [done |]. apply reads_size. notin.
Qed.

(** The output of a run has every derived column of the run filled with
    the value computed from the output row itself. *)
Lemma transform_filled cleaned out :
  transform cleaned = Some out →
  filled (has_col cleaned "loan_status") "is_good_loan"
         (λ r, Some (good_loan_of r)) (df out) ∧
  filled (has_col cleaned "grade") "risk_category" (λ r, Some (risk_of r)) (df out) ∧
  filled (has_col cleaned "annual_inc" && has_col cleaned "loan_amnt")
         "income_loan_ratio" ratio_of (df out) ∧
  filled (has_col cleaned "emp_length") "emp_years" (λ r, Some (years_of r)) (df out) ∧
  filled (has_col cleaned "loan_amnt") "loan_size_category" size_of (df out).
Proof.
  intros Ht.
  apply transform_inv in Ht as (s1 & s2 & s3 & s4 & H1 & H2 & H3 & H4 & H5).
  destruct (transform_gates _ _ _ _ _ H1 H2 H3 H4) as (G1 & G2a & G2b & G3 & G4).
  pose proof (risk_categories_writes _ _ H2) as W2.
  pose proof (income_ratio_writes _ _ H3) as W3.
  pose proof (employment_years_writes _ _ H4) as W4.
  pose proof (loan_size_categories_writes _ _ H5) as W5.
  pose proof (target_variable_fills _ _ H1) as F1. simpl in F1.
  pose proof (risk_categories_fills _ _ H2) as F2. rewrite G1 in F2.
  pose proof (income_ratio_fills _ _ H3) as F3. rewrite G2a, G2b in F3.
  pose proof (employment_years_fills _ _ H4) as F4. rewrite G3 in F4.
  pose proof (loan_size_categories_fills _ _ H5) as F5. rewrite G4 in F5.
  refine (conj _ (conj _ (conj _ (conj _ _)))).
  - refine (filled_writes _ _ _ _ _ _ _ _ W5 _); [apply reads_good_loan; notin | done |].
    refine (filled_writes _ _ _ _ _ _ _ _ W4 _); [apply reads_good_loan; notin | done |].
    refine (filled_writes _ _ _ _ _ _ _ _ W3 _); [apply reads_good_loan; notin | done |].
    refine (filled_writes _ _ _ _ _ _ _ _ W2 _); [apply reads_good_loan; notin | done |].
    exact F1.
  - refine (filled_writes _ _ _ _ _ _ _ _ W5 _); [apply reads_risk; notin | done |].
    refine (filled_writes _ _ _ _ _ _ _ _ W4 _); [apply reads_risk; notin | done |].
    refine (filled_writes _ _ _ _ _ _ _ _ W3 _); [apply reads_risk; notin | done |].
    exact F2.
  - refine (filled_writes _ _ _ _ _ _ _ _ W5 _); [apply reads_ratio; notin | done |].
    refine (filled_writes _ _ _ _ _ _ _ _ W4 _); [apply reads_ratio; notin | done |].
    exact F3.
  - refine (filled_writes _ _ _ _ _ _ _ _ W5 _); [apply reads_years; notin | done |].
    exact F4.
  - exact F5.
Qed.

(** *** A second run on the output *)

Lemma target_variable_fixed s :
  filled (has_col (df s) "loan_status") "is_good_loan"
         (λ r, Some (good_loan_of r)) (df s) →
  ∃ s', target_variable s = Some s' ∧ df s' = df s.
Proof.
  intros Hf. unfold target_variable.
  destruct (has_col (df s) "loan_status"); [| by exists s].
  destruct (Hf eq_refl) as [Hc Hrows]. eexists. split; [done |].
  cbn [df record]. by apply (set_col_id "is_good_loan" good_loan_of).
Qed.

Lemma risk_categories_fixed s :
  filled (has_col (df s) "grade") "risk_category" (λ r, Some (risk_of r)) (df s) →
  ∃ s', risk_categories s = Some s' ∧ df s' = df s.
Proof.
  intros Hf. unfold risk_categories.
  destruct (has_col (df s) "grade"); [| by exists s].
  destruct (Hf eq_refl) as [Hc Hrows]. eexists. split; [done |].
  cbn [df record]. by apply (set_col_id "risk_category" risk_of).
Qed.

Lemma income_ratio_fixed s :
  filled (has_col (df s) "annual_inc" && has_col (df s) "loan_amnt")
         "income_loan_ratio" ratio_of (df s) →
  ∃ s', income_ratio s = Some s' ∧ df s' = df s.
Proof.
  intros Hf. unfold income_ratio.
  destruct (has_col (df s) "annual_inc" && has_col (df s) "loan_amnt");
    [| by exists s].
  destruct (Hf eq_refl) as [Hc Hrows].
  pose proof (set_colM_id "income_loan_ratio" ratio_of (df s) Hc Hrows) as E.
  unfold ratio_of in E. rewrite E. cbn [mbind option_bind]. by eexists.
Qed.

Lemma loan_size_categories_fixed s :
  filled (has_col (df s) "loan_amnt") "loan_size_category" size_of (df s) →
  ∃ s', loan_size_categories s = Some s' ∧ df s' = df s.
Proof.
  intros Hf. unfold loan_size_categories.
  destruct (has_col (df s) "loan_amnt"); [| by exists s].
  destruct (Hf eq_refl) as [Hc Hrows].
  pose proof (set_colM_id "loan_size_category" size_of (df s) Hc Hrows) as E.
  unfold size_of in E. rewrite E. cbn [mbind option_bind]. by eexists.
Qed.

Lemma employment_years_fixed s :
  filled (has_col (df s) "emp_length") "emp_years" (λ r, Some (years_of r)) (df s) →
  employment_years s ≠ None →
  ∃ s', employment_years s = Some s' ∧ df s' = df s.
Proof.
  intros Hf Hok. unfold employment_years in *.
  destruct (has_col (df s) "emp_length"); [| by exists s].
  destruct (str_accessor (df s) "emp_length"); [| done].
  cbn [mbind option_bind]. destruct (Hf eq_refl) as [Hc Hrows].
  eexists. split; [done |]. cbn [df record].
  unfold set_col at 1. cbn [rows columns].
  assert (set_columns "emp_years"
            (set_col "emp_years" (λ r, extract_years (col r "emp_length")) (df s))
          = columns (df s)) as ->.
  { unfold set_columns at 1. rewrite has_col_true.
    - simpl. unfold set_columns. by rewrite has_col_true.
    - simpl. apply set_columns_elem. by right. }
  simpl. rewrite <- list_fmap_compose.
  assert ((λ r : row,
             <["emp_years" :=
                 if str_contains_plus (col r "emp_length") then num_Z 10
                 else col r "emp_years"]> r)
          ∘ (λ r : row, <["emp_years" := extract_years (col r "emp_length")]> r)
          <$> rows (df s) = rows (df s)) as ->; [| by destruct (df s)].
  rewrite <- (list_fmap_id (rows (df s))) at 2.
  apply list_fmap_ext. intros i r Hi. simpl.
  assert (r ∈ rows (df s)) as Hr by (apply list_elem_of_lookup; by exists i).
  apply (proj1 (Forall_forall _ _) Hrows) in Hr as (v & [= <-] & Hl).
  rewrite !(col_insert_ne "emp_years" "emp_length") by congruence.
  rewrite col_insert_eq, insert_insert_eq. by apply insert_id.
Qed.

(** Outside the derived names the output has the columns of the input. *)
Lemma transform_has_col cleaned out k :
  transform cleaned = Some out → k ∉ derived →
  has_col (df out) k = has_col cleaned k.
Proof.
  intros Ht Hk. destruct (transform_frame _ _ Ht) as ([t Hp] & Hc & _).
  unfold has_col. apply bool_decide_ext. split.
  - intros Hin. by destruct (Hc k Hin).
  - intros Hin. rewrite Hp. apply elem_of_app. by left.
Qed.

(** X15. Running the stage on its own output changes nothing: the derived
    columns are computed again from source columns that the first run
    left alone, and come out the same. *)
Theorem transform_again (cleaned : frame) (out : state) :
  transform cleaned = Some out →
  df <$> transform (df out) = Some (df out).
Proof.
  intros Ht.
  destruct (transform_filled _ _ Ht) as (F1 & F2 & F3 & F4 & F5).
  rewrite <- (transform_has_col _ _ "loan_status" Ht) in F1 by notin.
  rewrite <- (transform_has_col _ _ "grade" Ht) in F2 by notin.
  rewrite <- (transform_has_col _ _ "annual_inc" Ht),
          <- (transform_has_col _ _ "loan_amnt" Ht) in F3 by notin.
  rewrite <- (transform_has_col _ _ "emp_length" Ht) in F4 by notin.
  rewrite <- (transform_has_col _ _ "loan_amnt" Ht) in F5 by notin.
  (* the first run got through the [.str] accessor *)
  assert (∀ s, df s = df out → employment_years s ≠ None) as Hstr.
  { intros s Hs. rewrite employment_years_None, Hs.
    intros (Hg & Hne & Hall).
    pose proof Ht as Ht'.
    apply transform_inv in Ht' as (s1 & s2 & s3 & s4 & H1 & H2 & H3 & H4 & H5).
    destruct (transform_gates _ _ _ _ _ H1 H2 H3 H4) as (_ & _ & _ & G3 & _).
    pose proof (Forall2_agree_trans _ _ _ _ _
                  (writes_rows _ _ _ (employment_years_writes _ _ H4))
                  (writes_rows _ _ _ (loan_size_categories_writes _ _ H5))) as A.
    simpl in A.
    assert (employment_years s3 = None) as E; [| congruence].
    apply employment_years_None.
    rewrite G3, <- (transform_has_col _ _ "emp_length" Ht) by notin.
    split; [done |]. split.
    - apply Forall2_length in A. destruct (rows (df s3)), (rows (df out)); done.
    - apply (forall_agree (λ r, is_text (col r "emp_length") = false) _ _ _ A);
        [| done].
      intros r r' Ha. by rewrite (agree_off_col _ _ _ _ Ha) by notin. }
  unfold transform.
  destruct (target_variable_fixed (State (df out) [] []) F1) as (s1 & E1 & D1).
  rewrite E1. cbn [mbind option_bind]. cbn [df] in D1.
  rewrite <- D1 in F2.
  destruct (risk_categories_fixed s1 F2) as (s2 & E2 & D2).
  rewrite E2. cbn [mbind option_bind].
  rewrite D1 in D2. rewrite <- D2 in F3.
  destruct (income_ratio_fixed s2 F3) as (s3 & E3 & D3).
  rewrite E3. cbn [mbind option_bind].
  rewrite D2 in D3. rewrite <- D3 in F4.
  destruct (employment_years_fixed s3 F4 (Hstr s3 D3)) as (s4 & E4 & D4).
  rewrite E4. cbn [mbind option_bind].
  rewrite D3 in D4. rewrite <- D4 in F5.
  destruct (loan_size_categories_fixed s4 F5) as (s5 & E5 & D5).
  rewrite E5. simpl. by rewrite D5, D4.
Qed.

Lemma transform_again_witness :
  transform sample_cleaned = Some sample_processed ∧
  df <$> transform (df sample_processed) = Some (df sample_processed).
Proof.
  assert (transform sample_cleaned = Some sample_processed) as H1
    by (vm_compute; reflexivity).
  exact (conj H1 (transform_again sample_cleaned sample_processed H1)).
Defined.

End TransformationAgain.

(** * What the cleaning stage keeps *)

Module CleaningKept.
Import Cleaning CleaningSpec CleaningMore.

(** *** The columns *)

Lemma some_value_iff d c :
  existsb (λ r, negb (isnull (col r c))) (rows d) = true ↔
  (null_count d c < nrows d)%nat.
Proof.
  unfold null_count, nrows. induction (rows d) as [| r l IH].
  - simpl. split; [done | lia].
  - rewrite filter_cons.
    pose proof (length_filter (λ r, isnull (col r c) = true) l) as Hle.
    destruct (decide (isnull (col r c) = true)) as [Hn | Hn].
    + cbn [existsb length]. rewrite Hn. cbn [negb orb]. rewrite IH. lia.
    + apply not_true_is_false in Hn.
      cbn [existsb length]. rewrite Hn. cbn [negb orb]. split; [lia | done].
Qed.

Lemma columns_reduce raw :
  columns (df (reduce raw)) = filter (dense raw) (columns raw).
Proof.
  rewrite reduce_eq, clean_key_columns_columns, columns_after_dupes.
  unfold after_high, remove_high_missing. cbn [df].
  unfold after_empty, remove_empty_columns. cbn [df].
  unfold drop_columns, dropna_columns_all.
  set (keep1 := λ c, existsb (λ r, negb (isnull (col r c))) (rows raw)).
  set (d1 := select_columns keep1 raw).
  set (keep2 := λ c, negb (bool_decide (c ∈ high_missing d1))).
  unfold select_columns at 1. cbn [columns].
  unfold d1 at 1. unfold select_columns at 1. cbn [columns].
  rewrite list_filter_filter. apply filter_ext_in. intros c Hc.
  assert (keep1 c = true ↔ (null_count raw c < nrows raw)%nat) as Hk1
    by apply some_value_iff.
  split.
  - intros [Hk2 Hk]. pose proof Hk as Hlt. apply Hk1 in Hlt.
    split; [lia |].
    rewrite <- (null_count_select keep1 raw c Hk), <- (nrows_select keep1 raw).
    apply missing_pct_le_inv. fold d1.
    unfold keep2 in Hk2. apply negb_true_iff, bool_decide_eq_false in Hk2.
    unfold high_missing in Hk2. rewrite list_elem_of_filter in Hk2.
    destruct (Qle_bool (missing_pct d1 c) (8 # 10)); [done |].
    exfalso. apply Hk2. split; [done |].
    unfold d1, select_columns. cbn [columns]. by apply list_elem_of_filter.
  - intros [Hpos Hle].
    assert (keep1 c = true) as Hk by (apply Hk1; lia).
    split; [| done].
    unfold keep2. apply negb_true_iff, bool_decide_eq_false.
    unfold high_missing. rewrite list_elem_of_filter. intros [Hhigh _].
    rewrite missing_pct_le in Hhigh; [done |].
    unfold d1. by rewrite (null_count_select keep1 raw c Hk), nrows_select.
Qed.

Section Kept.

Variable float_of_str : string → option cell.

(** X16. The columns of the cleaned output are the columns of the raw input
    that are null in at most 80% of the raw rows, in the order of the raw
    input (none when the raw input has no row): the row filters and the
    conversion remove no column. *)
Theorem columns_kept (raw : frame) (s : state) :
  clean float_of_str raw = Some s →
  columns (df s) = filter (dense raw) (columns raw).
Proof.
  intros Hc. rewrite (clean_columns _ _ _ Hc). apply columns_reduce.
Qed.

(** *** The rows *)







End Kept.

(** *** Instances on the sample frame *)

Lemma columns_kept_witness :
  clean float_of_string sample_raw = Some sample_clean_state ∧
  columns (df sample_clean_state) = filter (dense sample_raw) (columns sample_raw).
Proof.
  assert (clean float_of_string sample_raw = Some sample_clean_state) as H1
    by (vm_compute; reflexivity).
  exact (conj H1 (columns_kept float_of_string sample_raw sample_clean_state H1)).
Defined.


End CleaningKept.

(** * The messages of the transformation stage *)

Module TransformationReport.
Import Transformation TransformationSpec TransformationMore.

Lemma is_good_iff (v : cell) :
  astype_int (isin good_loans v) = num_Z 1 ↔
  v = Str "Fully Paid" ∨ v = Str "Current".
Proof.
  destruct v as [| t | q | b]; simpl.
  - split; [done | by intros [? | ?]].
  - unfold good_loans. case_bool_decide as Hin; simpl.
    + split; [intros _ | done].
      rewrite !elem_of_cons, elem_of_nil in Hin.
      destruct Hin as [-> | [-> | []]]; [by left | by right].
    + split; [done |]. intros Hv. exfalso. apply Hin.
      rewrite !elem_of_cons. destruct Hv as [[= ->] | [= ->]]; [by left | right; by left].
  - split; [done | by intros [? | ?]].
  - split; [done | by intros [? | ?]].
Qed.

(** The rows that step 1 marks with a 1 are the good loans of the input. *)
Lemma good_count d :
  length (filter (λ r, col r "is_good_loan" = num_Z 1)
            ((λ r : row, <["is_good_loan" :=
                             astype_int (isin good_loans (col r "loan_status"))]> r)
             <$> rows d))
  = length (good_rows d).
Proof.
  unfold good_rows.
  induction (rows d) as [| r l IH]; [done |].
  rewrite fmap_cons, !filter_cons, col_insert_eq.
  destruct (decide (astype_int (isin good_loans (col r "loan_status")) = num_Z 1))
    as [Hg | Hg].
  - rewrite decide_True by (by apply is_good_iff). simpl. by rewrite IH.
  - rewrite decide_False by (by rewrite <- is_good_iff). exact IH.
Qed.

Lemma target_variable_messages cleaned s1 :
  target_variable (State cleaned [] []) = Some s1 →
  transformations s1
  = (if has_col cleaned "loan_status"
     then ["Target: " +:+ fmt_thousands (Z.of_nat (length (good_rows cleaned)))
           +:+ " good vs "
           +:+ fmt_thousands (Z.of_nat (nrows cleaned - length (good_rows cleaned)))
           +:+ " bad loans"]
     else []).
Proof.
  unfold target_variable. cbn [df].
  destruct (has_col cleaned "loan_status"); intros [= <-]; [| done].
  unfold record. cbn [transformations app].
  rewrite good_count.
  assert (nrows (set_col "is_good_loan"
                   (λ r, astype_int (isin good_loans (col r "loan_status"))) cleaned)
          = nrows cleaned) as ->.
  { unfold nrows, set_col. cbn [rows]. apply length_fmap. }
  assert (length (good_rows cleaned) ≤ nrows cleaned)%nat as Hle.
  { unfold good_rows, nrows. apply length_filter. }
  by rewrite <- Nat2Z.inj_sub.
Qed.

Lemma risk_categories_messages s s' :
  risk_categories s = Some s' →
  transformations s'
  = (transformations s
     ++ (if has_col (df s) "grade" then ["Added risk categories"] else []))%list.
Proof.
  unfold risk_categories. destruct (has_col (df s) "grade"); intros [= <-].
  - done.
  - by rewrite app_nil_r.
Qed.

Lemma income_ratio_messages s s' :
  income_ratio s = Some s' →
  transformations s'
  = (transformations s
     ++ (if has_col (df s) "annual_inc" && has_col (df s) "loan_amnt"
         then ["Added income to loan ratio"] else []))%list.
Proof.
  unfold income_ratio. destruct (_ && _).
  - destruct (set_colM _ _ _) as [d |]; intros [= <-]. done.
  - intros [= <-]. by rewrite app_nil_r.
Qed.

Lemma employment_years_messages s s' :
  employment_years s = Some s' →
  transformations s'
  = (transformations s
     ++ (if has_col (df s) "emp_length"
         then ["Converted employment length to years"] else []))%list.
Proof.
  unfold employment_years. destruct (has_col (df s) "emp_length").
  - destruct (str_accessor _ _); intros [= <-]. done.
  - intros [= <-]. by rewrite app_nil_r.
Qed.

Lemma loan_size_categories_messages s s' :
  loan_size_categories s = Some s' →
  transformations s'
  = (transformations s
     ++ (if has_col (df s) "loan_amnt" then ["Added loan size categories"] else []))%list.
Proof.
  unfold loan_size_categories. destruct (has_col (df s) "loan_amnt").
  - destruct (set_colM _ _ _) as [d |]; intros [= <-]. done.
  - intros [= <-]. by rewrite app_nil_r.
Qed.

(** X18. The transformation lines of the report are fixed by the input: one
    line per step whose source columns the input has, in step order, and
    the first of them counts as good the loans whose status is Fully Paid
    or Current and as bad all the others, those without a status
    included. *)
Theorem transformations_listed (cleaned : frame) (out : state) :
  transform cleaned = Some out →
  transformations out = messages_for cleaned.
Proof.
  intros Ht.
  apply transform_inv in Ht as (s1 & s2 & s3 & s4 & H1 & H2 & H3 & H4 & H5).
  destruct (transform_gates _ _ _ _ _ H1 H2 H3 H4) as (G1 & G2a & G2b & G3 & G4).
  rewrite (loan_size_categories_messages _ _ H5), (employment_years_messages _ _ H4),
    (income_ratio_messages _ _ H3), (risk_categories_messages _ _ H2),
    (target_variable_messages _ _ H1).
  rewrite G1, G2a, G2b, G3, G4. unfold messages_for. by rewrite <- !app_assoc.
Qed.

Lemma transformations_listed_witness :
  transform sample_cleaned = Some sample_processed ∧
  transformations sample_processed = messages_for sample_cleaned.
Proof.
  assert (transform sample_cleaned = Some sample_processed) as H1
    by (vm_compute; reflexivity).
  exact (conj H1 (transformations_listed sample_cleaned sample_processed H1)).
Defined.

End TransformationReport.
